(** * PayPal webhook server: verification pipeline and cancellation handler

    A shallow embedding of the webhook server (the ES-module entry point
    holding [getPayPalAccessToken], [verifyPayPalWebhook], the
    [express.json] verify callback and the [POST /api/paypal-webhook]
    handler), followed by the properties of the pipeline.

    JavaScript values are an inductive type, [async] functions are
    computations in a state-and-exception monad, and everything the
    program does not define itself (the network behind [fetch], the
    built-ins [JSON] and [Buffer], the Firestore client) is a field of an
    environment record, so that every definition can be run on a concrete
    environment. *)

From Stdlib Require Import ZArith String Ascii List.
From Stdlib Require Import Strings.Byte.
From stdpp Require Import base option list gmap strings pretty.

Set Warnings "-register-all".

Open Scope Z_scope.
Open Scope string_scope.

(** ** JavaScript values and errors *)

(** The values that [JSON.parse] can produce, plus [undefined], which
    property access produces for a missing key.  The program never does
    arithmetic: numbers are only tested for truthiness and printed, so
    the integer carried by [VNum] stands for the number. *)
Inductive value : Type :=
| VUndefined
| VNull
| VBool (b : bool)
| VNum (n : Z)
| VStr (s : string)
| VArr (items : list value)
| VObj (fields : list (string * value)).

(** An [Error] object: its [name] and its [message]. *)
Record JsError : Type := mkError { err_name : string; err_message : string }.

(** The result of evaluating an expression: a value or a thrown error. *)
Inductive Result (A : Type) : Type :=
| Ok (a : A)
| Throw (e : JsError).
Arguments Ok {A} a.
Arguments Throw {A} e.

(** Own-property lookup in the field list of an object. *)
Fixpoint assoc (k : string) (fields : list (string * value)) : value :=
  match fields with
  | [] => VUndefined
  | (k', v) :: rest => if String.eqb k k' then v else assoc k rest
  end.

(** Property read [v.k] (or [v['k']]) for the property names that the
    program reads: [event_type], [resource], [custom_id], [access_token]
    and [verification_status].  None of them is defined on a prototype,
    so strings, numbers, booleans and arrays answer [undefined], while
    [undefined] and [null] throw a [TypeError]. *)
Definition get_prop (v : value) (k : string) : Result value :=
  match v with
  | VUndefined =>
      Throw (mkError "TypeError"
        ("Cannot read properties of undefined (reading '" ++ k ++ "')"))
  | VNull =>
      Throw (mkError "TypeError"
        ("Cannot read properties of null (reading '" ++ k ++ "')"))
  | VObj fields => Ok (assoc k fields)
  | _ => Ok VUndefined
  end.

(** [ToBoolean]: the falsy values are [undefined], [null], [false], zero
    and the empty string. *)
Definition truthy (v : value) : bool :=
  match v with
  | VUndefined | VNull => false
  | VBool b => b
  | VNum n => negb (n =? 0)%Z
  | VStr s => negb (String.eqb s EmptyString)
  | VArr _ | VObj _ => true
  end.

(** [v === 'literal']. *)
Definition strict_eq_str (v : value) (lit : string) : bool :=
  match v with
  | VStr s => String.eqb s lit
  | _ => false
  end.

(** [ToString], as applied by template literals, for the values that
    it prints (see [printable] below). *)
Fixpoint to_string (v : value) : string :=
  match v with
  | VUndefined => "undefined"
  | VNull => "null"
  | VBool true => "true"
  | VBool false => "false"
  | VNum n => pretty n
  | VStr s => s
  | VArr items =>
      let elem x :=
        match x with
        | VUndefined | VNull => EmptyString
        | _ => to_string x
        end in
      String.concat "," (map elem items)
  | VObj _ => "[object Object]"
  end.

(** The values on which [ToString] returns and [to_string] is its text:
    an object that has a [toString] member of its own makes it throw a
    [TypeError] (the member, a JSON value, cannot be called), an array
    is printed through its elements, and an integer from [10^21] on is
    printed with an exponent, which [to_string] does not do. *)
Fixpoint printable (v : value) : bool :=
  match v with
  | VNum n => (Z.abs n <? 10 ^ 21)%Z
  | VArr items => forallb printable items
  | VObj fields => negb (existsb (fun member => String.eqb member.1 "toString") fields)
  | _ => true
  end.

(** A possibly-[undefined] string ([process.env.X], [req.rawBody],
    [headers['x']]) as a value, and under [ToString]. *)
Definition opt_value (o : option string) : value :=
  match o with
  | Some s => VStr s
  | None => VUndefined
  end.

Definition opt_to_string (o : option string) : string := to_string (opt_value o).

(** [needle] occurs in [hay]. *)
Fixpoint is_infix (needle hay : string) : bool :=
  String.prefix needle hay ||
  match hay with
  | EmptyString => false
  | String _ rest => is_infix needle rest
  end.

(** ** The outside world *)

(** The second argument of [fetch]. *)
Record FetchInit : Type := mkInit {
  init_method : string;
  init_headers : list (string * string);
  init_body : string
}.

(** An HTTP response as [fetch] resolves it: the status line, and the
    body as [text()] reads it ([None] when reading the body fails). *)
Record FetchResponse : Type := mkResponse {
  status : Z;
  body_text : option string
}.

(** [response.ok]: the status is in the range 200-299. *)
Definition ok (r : FetchResponse) : bool :=
  ((200 <=? status r) && (status r <=? 299))%Z.

Inductive FetchOutcome : Type :=
| NetworkError (e : JsError)
| Responded (r : FetchResponse).

(** A Firestore document reference: collection and document id. *)
Abbreviation DocRef := (string * string)%type.

(** Everything the program calls but does not define.
    - [JSON_parse]: [None] stands for a thrown [SyntaxError];
    - [Buffer_toString]: the UTF-8 decoding of [buf.toString()];
    - [base64]: [Buffer.from(s).toString('base64')];
    - [fetch]: what the network answers to a request;
    - [doc_id_rejected]: what else the Firestore client refuses, by
      throwing, when [doc] builds a reference from a path;
    - [store_fault]: a failure of the store itself (I/O, permission) on
      an update of the given document;
    - [decode_body]: the text that the JSON body parser of the framework
      reads from the body buffer of a request with the given headers (it
      decodes by the charset of [Content-Type] and drops a byte-order
      mark), or the status with which it refuses the request (charset
      not supported, body over the size limit);
    - [unparsed_body]: [req.body] of a request that the body parser
      passes on unparsed ([{}] or [undefined], by the version of the
      framework). *)
Record Env : Type := mkEnv {
  JSON_parse : string -> option value;
  JSON_stringify : value -> string;
  Buffer_toString : list byte -> string;
  base64 : string -> string;
  fetch : string -> FetchInit -> FetchOutcome;
  doc_id_rejected : string -> option JsError;
  store_fault : DocRef -> option JsError;
  decode_body : gmap string string -> list byte -> Z + string;
  unparsed_body : value
}.

(** [process.env]. *)
Record Config : Type := mkConfig {
  NODE_ENV : option string;
  PAYPAL_CLIENT_ID : option string;
  PAYPAL_CLIENT_SECRET : option string;
  PAYPAL_WEBHOOK_ID : option string
}.

(** ** Observable state *)

Inductive LogArg : Type :=
| LStr (s : string)
| LNum (n : Z)
| LVal (v : value)
| LErr (e : JsError).

Inductive LogLevel : Type := LevelLog | LevelError.

(** A call [ref.update(data)] issued to the store. *)
Record StoreCall : Type := mkUpdate {
  call_ref : DocRef;
  call_data : list (string * value)
}.

(** An HTTP response written by [res.status(code).send(text)]. *)
Record HttpResponse : Type := mkHttp { http_status : Z; http_body : string }.

(** The record store (documents as field maps, keyed by reference), and
    the traces of what the process did: console lines, outbound
    requests, calls issued to the store, responses written. *)
Record State : Type := mkState {
  store : gmap DocRef (gmap string value);
  console : list (LogLevel * list LogArg);
  outbound : list (string * FetchInit);
  store_calls : list StoreCall;
  responses : list HttpResponse
}.

(** ** The monad of [async] functions: state and exceptions *)

Definition M (A : Type) : Type := State -> Result A * State.

#[global] Instance M_ret : MRet M := fun A a st => (Ok a, st).

#[global] Instance M_bind : MBind M := fun A B f m st =>
  match m st with
  | (Ok a, st') => f a st'
  | (Throw e, st') => (Throw e, st')
  end.

Definition throw {A : Type} (e : JsError) : M A := fun st => (Throw e, st).

Definition lift {A : Type} (r : Result A) : M A := fun st => (r, st).

(** [try { body } catch (error) { handler }]. *)
Definition try_catch {A : Type} (body : M A) (handler : JsError -> M A) : M A :=
  fun st =>
    match body st with
    | (Ok a, st') => (Ok a, st')
    | (Throw e, st') => handler e st'
    end.

Definition console_log (args : list LogArg) : M unit := fun st =>
  (Ok tt, mkState (store st) (console st ++ [(LevelLog, args)])
            (outbound st) (store_calls st) (responses st)).

Definition console_error (args : list LogArg) : M unit := fun st =>
  (Ok tt, mkState (store st) (console st ++ [(LevelError, args)])
            (outbound st) (store_calls st) (responses st)).

(** [res.status(code).send(text)]. *)
Definition res_send (code : Z) (text : string) : M unit := fun st =>
  (Ok tt, mkState (store st) (console st) (outbound st) (store_calls st)
            (responses st ++ [mkHttp code text])).

(** Running a computation: its result and its final state. *)
Definition result_of {A : Type} (m : M A) (st : State) : Result A := (m st).1.
Definition state_after {A : Type} (m : M A) (st : State) : State := (m st).2.

(** The state in which a process starts: an empty store, nothing done. *)
Definition initial_state : State := mkState ∅ [] [] [] [].

(** ** The program *)

(** An inbound request as the route handler sees it: the header object
    (lower-cased names), [req.rawBody] ([undefined] unless the verify
    callback ran), and [req.body]. *)
Record Request : Type := mkRequest {
  headers : gmap string string;
  rawBody : option string;
  body : value
}.

(** The segments of a path: the non-empty pieces between its slashes. *)
Fixpoint pieces (current s : string) : list string :=
  match s with
  | EmptyString => [current]
  | String c rest =>
      if Ascii.eqb c "/" then current :: pieces EmptyString rest
      else pieces (current ++ String c EmptyString) rest
  end.

Definition path_segments (path : string) : list string :=
  List.filter (fun segment => negb (String.eqb segment EmptyString))
    (pieces EmptyString path).

(** The path of what lies below [collection] along [segments]. *)
Definition below (collection : string) (segments : list string) : string :=
  collection ++ String.concat EmptyString (map (fun segment => "/" ++ segment) segments).

Section Program.

Context (env : Env) (cfg : Config).

Definition PAYPAL_API_BASE : string :=
  if strict_eq_str (opt_value (NODE_ENV cfg)) "production"
  then "https://api-m.paypal.com"
  else "https://api-m.sandbox.paypal.com".

(** [await fetch(url, init)]: the request goes out, and the promise
    rejects on a network error. *)
Definition await_fetch (url : string) (init : FetchInit) : M FetchResponse :=
  fun st =>
    let st' := mkState (store st) (console st) (outbound st ++ [(url, init)])
                 (store_calls st) (responses st) in
    match fetch env url init with
    | NetworkError e => (Throw e, st')
    | Responded r => (Ok r, st')
    end.

(** [await response.text()]. *)
Definition response_text (r : FetchResponse) : M string :=
  match body_text r with
  | Some t => mret t
  | None => throw (mkError "FetchError" "Invalid response body while trying to fetch")
  end.

(** [JSON.parse(s)].  The message of the real [SyntaxError] quotes the
    text at fault; only the console shows it. *)
Definition parse (s : string) : Result value :=
  match JSON_parse env s with
  | Some v => Ok v
  | None => Throw (mkError "SyntaxError" "Unexpected token in JSON")
  end.

(** [await response.json()]: the body text, parsed. *)
Definition response_json (r : FetchResponse) : M value :=
  t ← response_text r; lift (parse t).

Definition token_url : string := PAYPAL_API_BASE ++ "/v1/oauth2/token".

Definition token_request : FetchInit :=
  let auth := base64 env (opt_to_string (PAYPAL_CLIENT_ID cfg) ++ ":" ++
                          opt_to_string (PAYPAL_CLIENT_SECRET cfg)) in
  mkInit "POST"
    [("Content-Type", "application/x-www-form-urlencoded");
     ("Authorization", "Basic " ++ auth)]
    "grant_type=client_credentials".

Definition getPayPalAccessToken : M value :=
  response ← await_fetch token_url token_request;
  if negb (ok response) then
    errorData ← response_text response;
    console_error [LStr "Respuesta de error de PayPal:"; LStr errorData];;
    throw (mkError "Error"
      ("Failed to get PayPal access token. Status: " ++ pretty (status response)))
  else
    data ← response_json response;
    lift (get_prop data "access_token").

Definition verify_url : string :=
  PAYPAL_API_BASE ++ "/v1/notifications/verify-webhook-signature".

(** The object literal [verificationData]. *)
Definition verificationData (hdrs : gmap string string) (webhook_event : value) : value :=
  VObj [("auth_algo", opt_value (hdrs !! "paypal-auth-algo"));
        ("cert_url", opt_value (hdrs !! "paypal-cert-url"));
        ("transmission_id", opt_value (hdrs !! "paypal-transmission-id"));
        ("transmission_sig", opt_value (hdrs !! "paypal-transmission-sig"));
        ("transmission_time", opt_value (hdrs !! "paypal-transmission-time"));
        ("webhook_id", opt_value (PAYPAL_WEBHOOK_ID cfg));
        ("webhook_event", webhook_event)].

Definition verify_request (accessToken : value) (data : value) : FetchInit :=
  mkInit "POST"
    [("Content-Type", "application/json");
     ("Authorization", "Bearer " ++ to_string accessToken)]
    (JSON_stringify env data).

Definition verifyPayPalWebhook (hdrs : gmap string string) (raw : option string) : M bool :=
  try_catch
    (accessToken ← getPayPalAccessToken;
     webhook_event ← lift (parse (opt_to_string raw));
     response ← await_fetch verify_url
                  (verify_request accessToken (verificationData hdrs webhook_event));
     if negb (ok response) then
       errorText ← response_text response;
       console_error [LStr "La llamada a la API de verificación de PayPal falló:";
                      LNum (status response); LStr errorText];;
       mret false
     else
       verificationResult ← response_json response;
       verification_status ← lift (get_prop verificationResult "verification_status");
       mret (strict_eq_str verification_status "SUCCESS"))
    (fun error =>
       console_error [LStr "Error durante la verificación del webhook:";
                      LStr (err_message error)];;
       mret false).

(** The verify callback given to [express.json]:
    [req.rawBody = buf.toString()]. *)
Definition express_json_verify (req : Request) (buf : list byte) : Request :=
  mkRequest (headers req) (Some (Buffer_toString env buf)) (body req).

(** [db.collection(name).doc(documentPath)].  The Firestore client takes
    only a non-empty string without [//]; it splits it on the slashes,
    dropping a leading and a trailing one, and appends the segments to
    the path of the collection.  The result must name a document, which
    it does for an odd number of segments: the last one is the id of the
    document, the others lead to the collection that holds it. *)
Definition doc (collection : string) (documentPath : value) : Result DocRef :=
  match documentPath with
  | VStr path =>
      if String.eqb path EmptyString
      then Throw (mkError "Error" "documentPath: Path must be a non-empty string.")
      else if is_infix "//" path
      then Throw (mkError "Error" "documentPath: Paths must not contain //.")
      else match doc_id_rejected env path with
           | Some e => Throw e
           | None =>
               let segments := path_segments path in
               if Nat.even (length segments)
               then Throw (mkError "Error"
                      "documentPath: Your path does not contain an even number of components.")
               else Ok (below collection (removelast segments),
                        List.last segments EmptyString)
           end
  | _ => Throw (mkError "Error" "documentPath: Path must be a non-empty string.")
  end.

Definition not_found : JsError := mkError "Error" "5 NOT_FOUND: No document to update".

(** The fields of [data] written over those of document [d]. *)
Definition write_fields (data : list (string * value)) (d : gmap string value)
  : gmap string value :=
  foldr (fun kv acc => <[kv.1 := kv.2]> acc) d data.

(** [await ref.update(data)]: the call reaches the store, which rejects
    it on a fault of its own or when the document does not exist, and
    otherwise writes the given fields of that document.  A rejected call
    leaves the store as it was. *)
Definition update (ref : DocRef) (data : list (string * value)) : M unit :=
  fun st =>
    let issued := (store_calls st ++ [mkUpdate ref data])%list in
    let unchanged := mkState (store st) (console st) (outbound st) issued (responses st) in
    match store_fault env ref with
    | Some e => (Throw e, unchanged)
    | None =>
        match store st !! ref with
        | None => (Throw not_found, unchanged)
        | Some d =>
            (Ok tt, mkState (<[ref := write_fields data d]> (store st)) (console st)
                      (outbound st) issued (responses st))
        end
    end.

(** The route [app.post('/api/paypal-webhook', async (req, res) => ...)].
    The conditional on the event type yields [true] where the source
    leaves the handler with [return]. *)
Definition paypal_webhook (req : Request) : M unit :=
  console_log [LStr "Webhook de PayPal recibido..."];;
  isVerified ← verifyPayPalWebhook (headers req) (rawBody req);
  if negb isVerified then
    console_log [LStr "¡ALERTA DE SEGURIDAD! Webhook no verificado. Petición rechazada."];;
    res_send 401 "Verificación de Webhook fallida."
  else
    console_log [LStr "Webhook verificado correctamente por PayPal."];;
    let event := body req in
    event_type ← lift (get_prop event "event_type");
    console_log [LStr "Tipo de evento:"; LVal event_type];;
    returned ←
      (if strict_eq_str event_type "BILLING.SUBSCRIPTION.CANCELLED" then
         resource ← lift (get_prop event "resource");
         technicianId ← lift (get_prop resource "custom_id");
         if negb (truthy technicianId) then
           console_log [LStr "Evento de cancelación recibido pero sin custom_id (technicianId). No se puede procesar."];;
           res_send 200 "Evento recibido pero sin technicianId.";;
           mret true
         else
           console_log [LStr ("Procesando cancelación para el técnico: " ++
                              to_string technicianId)];;
           try_catch
             (technicianRef ← lift (doc "technicians" technicianId);
              update technicianRef [("validationStatus", VStr "pending")];;
              console_log [LStr ("El estado de validación del técnico " ++
                                 to_string technicianId ++
                                 " ha sido actualizado a 'pending' en Firebase.")];;
              mret false)
             (fun error =>
                console_error [LStr ("Error al actualizar el técnico " ++
                                     to_string technicianId ++ " en Firebase:");
                               LErr error];;
                res_send 500 "Error interno del servidor al actualizar la base de datos.";;
                mret true)
       else
         console_log [LStr ("Evento '" ++ to_string event_type ++
                            "' recibido, pero no es de cancelación. No se tomará acción.")];;
         mret false);
    if returned : bool then mret tt
    else res_send 200 "Webhook recibido y procesado".

(** *** Request ingestion

    [app.use(express.json({ verify }))] runs in front of the route.  The
    body parser belongs to the framework; what the program relies on is:
    a request without a JSON body is passed on unparsed and the callback
    is not called; otherwise, unless the parser refuses the charset or
    the size of the body, the callback receives the body buffer, and
    then the text that the parser decodes from that buffer becomes
    [req.body] by [JSON.parse] (an empty text gives [{}]; a text that
    does not start an object or an array, or does not parse, is refused
    with status 400 and the route is not reached).
    [in_payload] is the body buffer of a request that has a JSON body. *)
Record Inbound : Type := mkInbound {
  in_headers : gmap string string;
  in_payload : option (list byte)
}.

Inductive Ingest : Type :=
| Next (req : Request)
| Refused (code : Z).

Definition is_json_space (c : ascii) : bool :=
  (Ascii.eqb c " " || Ascii.eqb c "009" || Ascii.eqb c "010" || Ascii.eqb c "013")%char.

Fixpoint first_char (s : string) : option ascii :=
  match s with
  | EmptyString => None
  | String c rest => if is_json_space c then first_char rest else Some c
  end.

Definition opens_json_text (s : string) : bool :=
  match first_char s with
  | Some c => (Ascii.eqb c "{" || Ascii.eqb c "[")%char
  | None => false
  end.

Definition express_json (verify : Request -> list byte -> Request) (w : Inbound) : Ingest :=
  let fresh := mkRequest (in_headers w) None (unparsed_body env) in
  match in_payload w with
  | None => Next fresh
  | Some buf =>
      match decode_body env (in_headers w) buf with
      | inl code => Refused code
      | inr text =>
          let req := verify fresh buf in
          if String.eqb text EmptyString
          then Next (mkRequest (headers req) (rawBody req) (VObj []))
          else if opens_json_text text then
            match JSON_parse env text with
            | Some v => Next (mkRequest (headers req) (rawBody req) v)
            | None => Refused 400
            end
          else Refused 400
      end
  end.

(** The middleware as the program installs it. *)
Definition ingest (w : Inbound) : Ingest := express_json express_json_verify w.

(** *** The request state machine

    [Received -> Verifying -> {Rejected | Routing -> {Ignored | Mutating ->
    {Mutated | MutationFailed}}}], as a function of the request and of the
    store it meets.  [Ignored] is split by cause, [MutationFailed] by
    whether the update was issued, and [Crashed] is the handler leaving
    by an exception nobody catches. *)

(** What [verifyPayPalWebhook] returns for given headers and raw body.
    It is run here from the initial state; its result does not depend on
    the state (lemma [verify_returns_verdict]). *)
Definition verdict (hdrs : gmap string string) (raw : option string) : bool :=
  match result_of (verifyPayPalWebhook hdrs raw) initial_state with
  | Ok b => b
  | Throw _ => false
  end.

(** [event.resource.custom_id]. *)
Definition custom_id_of (event : value) : Result value :=
  match get_prop event "resource" with
  | Ok resource => get_prop resource "custom_id"
  | Throw e => Throw e
  end.

Inductive Outcome : Type :=
| Rejected
| Ignored
| Unprocessable
| IdRefused (e : JsError)
| UpdateFailed (ref : DocRef) (e : JsError)
| Mutated (ref : DocRef) (d : gmap string value)
| Crashed (e : JsError).

Definition outcome (req : Request) (s : gmap DocRef (gmap string value)) : Outcome :=
  if negb (verdict (headers req) (rawBody req)) then Rejected
  else
    match get_prop (body req) "event_type" with
    | Throw e => Crashed e
    | Ok event_type =>
        if negb (strict_eq_str event_type "BILLING.SUBSCRIPTION.CANCELLED") then Ignored
        else
          match custom_id_of (body req) with
          | Throw e => Crashed e
          | Ok technicianId =>
              if negb (truthy technicianId) then Unprocessable
              else
                match doc "technicians" technicianId with
                | Throw e => IdRefused e
                | Ok ref =>
                    match store_fault env ref, s !! ref with
                    | Some e, _ => UpdateFailed ref e
                    | None, None => UpdateFailed ref not_found
                    | None, Some d => Mutated ref d
                    end
                end
          end
    end.

End Program.

(** The single write of the cancellation handler. *)
Definition pending_update : list (string * value) :=
  [("validationStatus", VStr "pending")].

(** What each terminal state shows to the outside. *)
Definition outcome_result (o : Outcome) : Result unit :=
  match o with
  | Crashed e => Throw e
  | _ => Ok tt
  end.

Definition outcome_responses (o : Outcome) : list HttpResponse :=
  match o with
  | Rejected => [mkHttp 401 "Verificación de Webhook fallida."]
  | Ignored => [mkHttp 200 "Webhook recibido y procesado"]
  | Unprocessable => [mkHttp 200 "Evento recibido pero sin technicianId."]
  | IdRefused _ | UpdateFailed _ _ =>
      [mkHttp 500 "Error interno del servidor al actualizar la base de datos."]
  | Mutated _ _ => [mkHttp 200 "Webhook recibido y procesado"]
  | Crashed _ => []
  end.

Definition outcome_calls (o : Outcome) : list StoreCall :=
  match o with
  | UpdateFailed ref _ | Mutated ref _ => [mkUpdate ref pending_update]
  | _ => []
  end.

Definition outcome_store (o : Outcome) (s : gmap DocRef (gmap string value))
  : gmap DocRef (gmap string value) :=
  match o with
  | Mutated ref d => <[ref := <["validationStatus" := VStr "pending"]> d]> s
  | _ => s
  end.

(** ** Computations that only log and call the network *)

(** [traces l q st]: the state [st] after the console lines [l] and the
    outbound requests [q]. *)
Definition traces (l : list (LogLevel * list LogArg)) (q : list (string * FetchInit))
    (st : State) : State :=
  mkState (store st) (console st ++ l) (outbound st ++ q) (store_calls st) (responses st).

(** A computation is oblivious when its result, its console lines and
    its requests do not depend on the state it starts from, and it
    changes nothing else. *)
Definition oblivious {A : Type} (m : M A) : Prop :=
  exists r l q, forall st, m st = (r, traces l q st).


(** ** Vocabulary of the properties *)

(** The event of the request carries the cancellation tag. *)
Definition cancellation (req : Request) : Prop :=
  get_prop (body req) "event_type" = Ok (VStr "BILLING.SUBSCRIPTION.CANCELLED").

(** The resource of the event carries the non-empty correlation
    identifier [id]. *)
Definition correlation_id (req : Request) (id : string) : Prop :=
  custom_id_of (body req) = Ok (VStr id) /\ id <> EmptyString.

(** The update of the record of [id] goes through: the client takes
    [id] as the key [ref], the store reports no fault, and the record [d]
    is there. *)
Definition update_applies (env : Env) (req : Request) (st : State)
    (ref : DocRef) (d : gmap string value) : Prop :=
  exists id, correlation_id req id /\
    doc env "technicians" (VStr id) = Ok ref /\
    store_fault env ref = None /\
    store st !! ref = Some d.

(** The ways in which the verification can fail to reach a verdict of
    PayPal: the token exchange throws, the raw body does not parse, the
    verification call does not complete, it completes with a non-success
    status, or its response has no readable JSON body with a
    [verification_status]. *)
Variant verification_failure (env : Env) (cfg : Config)
    (hdrs : gmap string string) (raw : option string) (st : State) : Prop :=
| token_exchange_failed e :
    result_of (getPayPalAccessToken env cfg) st = Throw e ->
    verification_failure env cfg hdrs raw st
| body_not_parsed :
    JSON_parse env (opt_to_string raw) = None ->
    verification_failure env cfg hdrs raw st
| verification_call_failed accessToken webhook_event e :
    result_of (getPayPalAccessToken env cfg) st = Ok accessToken ->
    JSON_parse env (opt_to_string raw) = Some webhook_event ->
    fetch env (verify_url cfg)
      (verify_request env accessToken (verificationData cfg hdrs webhook_event))
      = NetworkError e ->
    verification_failure env cfg hdrs raw st
| verification_call_rejected accessToken webhook_event response :
    result_of (getPayPalAccessToken env cfg) st = Ok accessToken ->
    JSON_parse env (opt_to_string raw) = Some webhook_event ->
    fetch env (verify_url cfg)
      (verify_request env accessToken (verificationData cfg hdrs webhook_event))
      = Responded response ->
    ok response = false ->
    verification_failure env cfg hdrs raw st
| verification_response_malformed accessToken webhook_event response e :
    result_of (getPayPalAccessToken env cfg) st = Ok accessToken ->
    JSON_parse env (opt_to_string raw) = Some webhook_event ->
    fetch env (verify_url cfg)
      (verify_request env accessToken (verificationData cfg hdrs webhook_event))
      = Responded response ->
    result_of (verificationResult ← response_json env response;
               lift (get_prop verificationResult "verification_status")) st = Throw e ->
    verification_failure env cfg hdrs raw st.

(** The text [s] can be read off the error [e]. *)
Definition error_carries (e : JsError) (s : string) : bool :=
  is_infix s (err_message e).

(** The bodies of the requests that a verification sends to the
    signature-verification endpoint. *)
Definition sent_to_verifier (env : Env) (cfg : Config)
    (hdrs : gmap string string) (raw : option string) : list string :=
  map (fun call => init_body call.2)
    (List.filter (fun call => String.eqb call.1 (verify_url cfg))
       (outbound (state_after (verifyPayPalWebhook env cfg hdrs raw) initial_state))).

(** *** Statements that the program does not satisfy as worded *)

(** The store changes exactly when the request is verified, is a
    cancellation and carries a non-empty correlation identifier. *)
Definition mutation_iff_guard : Prop :=
  forall env cfg req st,
    store (state_after (paypal_webhook env cfg req) st) <> store st <->
    (verdict env cfg (headers req) (rawBody req) = true /\
     cancellation req /\
     exists id, correlation_id req id).

(** On a non-success status the token exchange fails with an error that
    carries both the status and the body text. *)
Definition token_error_carries_status_and_text : Prop :=
  forall env cfg st response text,
    fetch env (token_url cfg) (token_request env cfg) = Responded response ->
    ok response = false ->
    body_text response = Some text ->
    exists e,
      result_of (getPayPalAccessToken env cfg) st = Throw e /\
      error_carries e (pretty (status response)) = true /\
      error_carries e text = true.


(** ** Concrete worlds

    Environments on which the program can be run: a deployment outside
    production, a [JSON.parse] given by its values on the texts used
    below, a serialiser for values whose strings need no escaping, a
    network that answers the two PayPal endpoints as the arguments say,
    and a body parser that reads ASCII bodies as they are. *)
Module Sample.

Definition dq : string := String "034" EmptyString.

(** [s] between double quotes. *)
Definition qt (s : string) : string := dq ++ s ++ dq.

Definition cfg : Config :=
  mkConfig None (Some "client") (Some "secret") (Some "WH-4JY26").

(** The cancellation event of technician [tech_123]. *)
Definition cancel_text : string :=
  "{" ++ qt "event_type" ++ ":" ++ qt "BILLING.SUBSCRIPTION.CANCELLED" ++ "," ++
  qt "resource" ++ ":{" ++ qt "custom_id" ++ ":" ++ qt "tech_123" ++ "}}".

Definition cancel_event : value :=
  VObj [("event_type", VStr "BILLING.SUBSCRIPTION.CANCELLED");
        ("resource", VObj [("custom_id", VStr "tech_123")])].

(** The same event, sent with blanks after the separators. *)
Definition cancel_text_spaced : string :=
  "{ " ++ qt "event_type" ++ ": " ++ qt "BILLING.SUBSCRIPTION.CANCELLED" ++ ", " ++
  qt "resource" ++ ": { " ++ qt "custom_id" ++ ": " ++ qt "tech_123" ++ " } }".

(** A cancellation event without [resource], and one whose [resource]
    is [null]. *)
Definition bare_text : string :=
  "{" ++ qt "event_type" ++ ":" ++ qt "BILLING.SUBSCRIPTION.CANCELLED" ++ "}".

Definition bare_event : value :=
  VObj [("event_type", VStr "BILLING.SUBSCRIPTION.CANCELLED")].

Definition null_resource_text : string :=
  "{" ++ qt "event_type" ++ ":" ++ qt "BILLING.SUBSCRIPTION.CANCELLED" ++ "," ++
  qt "resource" ++ ":null}".

Definition null_resource_event : value :=
  VObj [("event_type", VStr "BILLING.SUBSCRIPTION.CANCELLED"); ("resource", VNull)].

(** Bodies of the PayPal endpoints. *)
Definition token_text : string := "{" ++ qt "access_token" ++ ":" ++ qt "A21AAFs9" ++ "}".
Definition success_text : string :=
  "{" ++ qt "verification_status" ++ ":" ++ qt "SUCCESS" ++ "}".
Definition failure_text : string :=
  "{" ++ qt "verification_status" ++ ":" ++ qt "FAILURE" ++ "}".
Definition invalid_client_text : string :=
  "{" ++ qt "error" ++ ":" ++ qt "invalid_client" ++ "}".

Definition json_table : list (string * value) :=
  [(cancel_text, cancel_event);
   (cancel_text_spaced, cancel_event);
   (bare_text, bare_event);
   (null_resource_text, null_resource_event);
   (token_text, VObj [("access_token", VStr "A21AAFs9")]);
   (success_text, VObj [("verification_status", VStr "SUCCESS")]);
   (failure_text, VObj [("verification_status", VStr "FAILURE")]);
   (invalid_client_text, VObj [("error", VStr "invalid_client")])].

Definition json_parse (s : string) : option value :=
  snd <$> List.find (fun entry => String.eqb s entry.1) json_table.

Fixpoint json_stringify (v : value) : string :=
  match v with
  | VUndefined | VNull => "null"
  | VBool true => "true"
  | VBool false => "false"
  | VNum n => pretty n
  | VStr s => qt s
  | VArr items => "[" ++ String.concat "," (map json_stringify items) ++ "]"
  | VObj fields =>
      let member kv :=
        match kv with
        | (_, VUndefined) => []
        | (k, x) => [qt k ++ ":" ++ json_stringify x]
        end in
      "{" ++ String.concat "," (flat_map member fields) ++ "}"
  end.

Definition base64_known (s : string) : string :=
  if String.eqb s "client:secret" then "Y2xpZW50OnNlY3JldA==" else EmptyString.

Definition network (token verification : FetchOutcome) (url : string) (init : FetchInit)
  : FetchOutcome :=
  if String.eqb url "https://api-m.sandbox.paypal.com/v1/oauth2/token" then token
  else if String.eqb url
            "https://api-m.sandbox.paypal.com/v1/notifications/verify-webhook-signature"
       then verification
       else NetworkError (mkError "FetchError" "request failed").

(** A world: the answers of the two endpoints and the faults of the store. *)
Definition world (token verification : FetchOutcome) (fault : DocRef -> option JsError) : Env :=
  mkEnv json_parse json_stringify string_of_list_byte base64_known
    (network token verification) (fun _ => None) fault
    (fun _ buf => inr (string_of_list_byte buf)) (VObj []).

Definition token_granted : FetchOutcome := Responded (mkResponse 200 (Some token_text)).
Definition says_success : FetchOutcome := Responded (mkResponse 200 (Some success_text)).
Definition says_failure : FetchOutcome := Responded (mkResponse 200 (Some failure_text)).
Definition token_refused : FetchOutcome :=
  Responded (mkResponse 401 (Some invalid_client_text)).

(** PayPal grants a token and confirms the signature; the store is sound. *)
Definition trusting : Env := world token_granted says_success (fun _ => None).

(** PayPal grants a token and denies the signature. *)
Definition doubting : Env := world token_granted says_failure (fun _ => None).

(** PayPal refuses the client credentials. *)
Definition refusing : Env := world token_refused says_success (fun _ => None).

(** The signed request carrying [text] as JSON body. *)
Definition signed_headers : gmap string string :=
  {[ "paypal-auth-algo" := "SHA256withRSA";
     "paypal-cert-url" := "https://api.sandbox.paypal.com/v1/notifications/certs/CERT-360caa42";
     "paypal-transmission-id" := "69cd13f0-d67a-11e5-baa3-778b53f4ae55";
     "paypal-transmission-sig" := "lmI95Jx3Y9nhR5SJWlHVIWpg4AgFk7n9bCHSRxbrd8A9zrhdu2rMyFrmz";
     "paypal-transmission-time" := "2016-02-18T20:01:35Z" ]}.

Definition delivery (text : string) : Inbound :=
  mkInbound signed_headers (Some (list_byte_of_string text)).

Definition request (text : string) (event : value) : Request :=
  mkRequest signed_headers (Some text) event.

(** A store holding the record of technician [tech_123]. *)
Definition technician : gmap string value :=
  {[ "name" := VStr "Ada"; "validationStatus" := VStr "validated" ]}.

Definition with_technician : State :=
  mkState {[ ("technicians", "tech_123") := technician ]} [] [] [] [].

End Sample.

(** ** Start-up

    The module body around the route: the initialisation of the Firebase
    Admin SDK, which ends the process when it fails, and the call of
    [app.listen]. *)

(** A value thrown while the module loads: the error, and its [code]
    property when it has one. *)
Record LoadError : Type := mkLoadError {
  load_error : JsError;
  load_code : option string
}.

(** What the start-up meets.
    - [require_serviceAccountKey]: [require('./serviceAccountKey.json')];
    - [initializeApp]: [admin.initializeApp] on the credential made from
      the service account and on the database URL, [Some e] when the
      credential or the initialisation throws [e];
    - [FIREBASE_DATABASE_URL], [env_PORT]: [process.env]. *)
Record Host : Type := mkHost {
  require_serviceAccountKey : LoadError + value;
  initializeApp : value -> option string -> option LoadError;
  FIREBASE_DATABASE_URL : option string;
  env_PORT : option string
}.

(** How the start-up ends: [process.exit(code)], or a server that
    listens. *)
Inductive Process : Type :=
| Exited (code : Z)
| Listening (port : value).

(** The [try] block that loads the key and initialises the SDK. *)
Definition load_firebase (h : Host) : LoadError + unit :=
  match require_serviceAccountKey h with
  | inl error => inl error
  | inr serviceAccount =>
      match initializeApp h serviceAccount (FIREBASE_DATABASE_URL h) with
      | Some error => inl error
      | None => inr tt
      end
  end.

(** The whole [try]/[catch]: the console lines, and the exit code when
    the [catch] branch ends the process. *)
Definition initialize_firebase (h : Host)
  : list (LogLevel * list LogArg) * option Z :=
  match load_firebase h with
  | inr _ =>
      ([(LevelLog, [LStr "Firebase Admin SDK inicializado correctamente."])], None)
  | inl error =>
      ((if strict_eq_str (opt_value (load_code error)) "MODULE_NOT_FOUND"
        then [(LevelError,
               [LStr "Error: El archivo serviceAccountKey.json no se encontró."]);
              (LevelError,
               [LStr "Por favor, asegúrate de que el archivo está en la raíz del proyecto y que has reiniciado el servidor."])]
        else [(LevelError,
               [LStr "Ocurrió un error inesperado al inicializar Firebase:";
                LErr (load_error error)])]),
       Some 1)
  end.

(** [const PORT = process.env.PORT || 8080]. *)
Definition PORT (h : Host) : value :=
  if truthy (opt_value (env_PORT h)) then opt_value (env_PORT h) else VNum 8080.

(** The module from its first statement to [app.listen], in a run in
    which the port can be bound: the console and the process. *)
Definition main (h : Host) : list (LogLevel * list LogArg) * Process :=
  match initialize_firebase h with
  | (lines, Some code) => (lines, Exited code)
  | (lines, None) =>
      ((lines ++
        [(LevelLog, [LStr ("Servidor escuchando en el puerto " ++ to_string (PORT h))]);
         (LevelLog, [LStr ("Accede a la página de promoción en http://localhost:" ++
                           to_string (PORT h))])])%list,
       Listening (PORT h))
  end.

(** ** The record that a request aims at *)

(** The reference of the record that the handler updates for a request,
    when the request passes the guards, the client builds the reference
    and the store has no fault on it. *)
Definition target (env : Env) (cfg : Config) (req : Request) : option DocRef :=
  if verdict env cfg (headers req) (rawBody req) then
    match get_prop (body req) "event_type" with
    | Ok event_type =>
        if strict_eq_str event_type "BILLING.SUBSCRIPTION.CANCELLED" then
          match custom_id_of (body req) with
          | Ok technicianId =>
              if truthy technicianId then
                match doc env "technicians" technicianId with
                | Ok ref =>
                    match store_fault env ref with
                    | None => Some ref
                    | Some _ => None
                    end
                | Throw _ => None
                end
              else None
          | Throw _ => None
          end
        else None
    | Throw _ => None
    end
  else None.

(** The responses that the handler can write. *)
Definition handler_responses : list HttpResponse :=
  [mkHttp 401 "Verificación de Webhook fallida.";
   mkHttp 200 "Evento recibido pero sin technicianId.";
   mkHttp 500 "Error interno del servidor al actualizar la base de datos.";
   mkHttp 200 "Webhook recibido y procesado"].

(** The values that [if (!technicianId)] takes for absent. *)
Definition falsy_values : list value :=
  [VUndefined; VNull; VBool false; VNum 0; VStr EmptyString].

(** ** Further concrete worlds: other events, other answers, a host *)
Module Cases.

(** A payment event, which the handler does not process. *)
Definition sale_text : string :=
  "{" ++ Sample.qt "event_type" ++ ":" ++ Sample.qt "PAYMENT.SALE.COMPLETED" ++ "}".

Definition sale_event : value := VObj [("event_type", VStr "PAYMENT.SALE.COMPLETED")].

(** A cancellation whose resource has no [custom_id]. *)
Definition anonymous_text : string :=
  "{" ++ Sample.qt "event_type" ++ ":" ++ Sample.qt "BILLING.SUBSCRIPTION.CANCELLED" ++
  "," ++ Sample.qt "resource" ++ ":{}}".

Definition anonymous_event : value :=
  VObj [("event_type", VStr "BILLING.SUBSCRIPTION.CANCELLED"); ("resource", VObj [])].

(** A success answer of the token endpoint without [access_token]. *)
Definition tokenless_text : string :=
  "{" ++ Sample.qt "token_type" ++ ":" ++ Sample.qt "Bearer" ++ "}".

Definition tokenless_members : list (string * value) := [("token_type", VStr "Bearer")].

Definition json_parse (s : string) : option value :=
  if String.eqb s sale_text then Some sale_event
  else if String.eqb s anonymous_text then Some anonymous_event
  else if String.eqb s tokenless_text then Some (VObj tokenless_members)
  else Sample.json_parse s.

Definition world (token verification : FetchOutcome) (fault : DocRef -> option JsError) : Env :=
  mkEnv json_parse Sample.json_stringify string_of_list_byte Sample.base64_known
    (Sample.network token verification) (fun _ => None) fault
    (fun _ buf => inr (string_of_list_byte buf)) (VObj []).

(** PayPal confirms every signature; the store is sound. *)
Definition trusting : Env := world Sample.token_granted Sample.says_success (fun _ => None).

(** The token endpoint answers 200 without a token. *)
Definition tokenless : Env :=
  world (Responded (mkResponse 200 (Some tokenless_text))) Sample.says_success
    (fun _ => None).

(** PayPal confirms, and the store is unavailable. *)
Definition unavailable : JsError := mkError "Error" "14 UNAVAILABLE: No connection established".

Definition store_down : Env :=
  world Sample.token_granted Sample.says_success (fun _ => Some unavailable).

(** A delivery without body. *)
Definition bodiless : Inbound := mkInbound Sample.signed_headers None.

End Cases.

(** A path is that of the collection [technicians] or of a
    sub-collection below it. *)
Definition under_technicians (collection_path : string) : bool :=
  String.eqb collection_path "technicians" ||
  String.prefix "technicians/" collection_path.

(** As C6 is worded: every verified cancellation that carries a
    non-empty correlation identifier has exactly one update call issued
    for it. *)
Definition every_identified_cancellation_is_updated : Prop :=
  forall env cfg req st id,
    verdict env cfg (headers req) (rawBody req) = true ->
    cancellation req ->
    correlation_id req id ->
    exists ref,
      store_calls (state_after (paypal_webhook env cfg req) st) =
      (store_calls st ++ [mkUpdate ref [("validationStatus", VStr "pending")]])%list.

(** ** Concrete worlds at the edges: an identifier with a slash, a body
    sent under another charset *)
Module Edge.

(** A cancellation whose [custom_id] is a path of two segments. *)
Definition slash_text : string :=
  "{" ++ Sample.qt "event_type" ++ ":" ++ Sample.qt "BILLING.SUBSCRIPTION.CANCELLED" ++
  "," ++ Sample.qt "resource" ++ ":{" ++ Sample.qt "custom_id" ++ ":" ++
  Sample.qt "a/b" ++ "}}".

Definition slash_event : value :=
  VObj [("event_type", VStr "BILLING.SUBSCRIPTION.CANCELLED");
        ("resource", VObj [("custom_id", VStr "a/b")])].

(** A cancellation whose [custom_id] holds a UTF-7 escape: read as
    UTF-8 the identifier is [tech+AF8-123], read as UTF-7 the escape
    is an underscore and the body is that of [tech_123]. *)
Definition plus_text : string :=
  "{" ++ Sample.qt "event_type" ++ ":" ++ Sample.qt "BILLING.SUBSCRIPTION.CANCELLED" ++
  "," ++ Sample.qt "resource" ++ ":{" ++ Sample.qt "custom_id" ++ ":" ++
  Sample.qt "tech+AF8-123" ++ "}}".

Definition plus_event : value :=
  VObj [("event_type", VStr "BILLING.SUBSCRIPTION.CANCELLED");
        ("resource", VObj [("custom_id", VStr "tech+AF8-123")])].

Definition json_parse (s : string) : option value :=
  if String.eqb s slash_text then Some slash_event
  else if String.eqb s plus_text then Some plus_event
  else Cases.json_parse s.

(** The signed headers, with a [Content-Type] that names UTF-7. *)
Definition utf7_headers : gmap string string :=
  <["content-type" := "application/json; charset=utf-7"]> Sample.signed_headers.

(** The text that the body parser reads: under UTF-7 the body
    [plus_text] decodes to [Sample.cancel_text]; the other bodies used
    here are ASCII without escapes and read as they are. *)
Definition decode (hdrs : gmap string string) (buf : list byte) : Z + string :=
  match hdrs !! "content-type" with
  | Some charset =>
      if String.eqb charset "application/json; charset=utf-7" &&
         String.eqb (string_of_list_byte buf) plus_text
      then inr Sample.cancel_text
      else inr (string_of_list_byte buf)
  | None => inr (string_of_list_byte buf)
  end.

(** PayPal confirms every signature; the store is sound. *)
Definition trusting : Env :=
  mkEnv json_parse Sample.json_stringify string_of_list_byte Sample.base64_known
    (Sample.network Sample.token_granted Sample.says_success) (fun _ => None)
    (fun _ => None) decode (VObj []).

Definition utf7_delivery : Inbound :=
  mkInbound utf7_headers (Some (list_byte_of_string plus_text)).

End Edge.

(** * Properties *)

Open Scope list_scope.

(** ** Tactics *)

Ltac unfold_ops :=
  unfold result_of, state_after, try_catch, await_fetch, response_json,
    response_text, lift, throw, console_error, console_log, res_send,
    mbind, M_bind, mret, M_ret in *.

Ltac reduce_runs :=
  cbv beta iota zeta in *;
  cbn [fst snd store console outbound store_calls responses] in *.

(** Symbolic execution of the verification, one case per outcome of the
    calls it makes. *)
Ltac run_verify :=
  unfold verifyPayPalWebhook, getPayPalAccessToken in *; unfold_ops;
  unfold parse in *; reduce_runs;
  repeat (case_match; simplify_eq; reduce_runs).

(** ** Oblivious computations compose *)

Lemma traces_nil st : traces [] [] st = st.
Proof. destruct st; unfold traces; simpl. by rewrite !app_nil_r. Qed.

Lemma traces_traces l1 q1 l2 q2 st :
  traces l2 q2 (traces l1 q1 st) = traces (l1 ++ l2) (q1 ++ q2) st.
Proof. unfold traces; simpl. by rewrite !app_assoc. Qed.

Lemma oblivious_ret {A : Type} (a : A) : oblivious (mret a).
Proof. exists (Ok a), [], []. intros st. by rewrite traces_nil. Qed.

Lemma oblivious_throw {A : Type} (e : JsError) : oblivious (@throw A e).
Proof. exists (Throw e), [], []. intros st. by rewrite traces_nil. Qed.

Lemma oblivious_lift {A : Type} (r : Result A) : oblivious (lift r).
Proof. exists r, [], []. intros st. by rewrite traces_nil. Qed.

Lemma oblivious_bind {A B : Type} (m : M A) (f : A -> M B) :
  oblivious m -> (forall a, oblivious (f a)) -> oblivious (m ≫= f).
Proof.
  intros (r & l & q & Hm) Hf. destruct r as [a | e].
  - destruct (Hf a) as (r' & l' & q' & Hfa).
    exists r', (l ++ l'), (q ++ q'). intros st.
    unfold mbind, M_bind. by rewrite Hm, Hfa, traces_traces.
  - exists (Throw e), l, q. intros st. unfold mbind, M_bind. by rewrite Hm.
Qed.

Lemma oblivious_try_catch {A : Type} (m : M A) (h : JsError -> M A) :
  oblivious m -> (forall e, oblivious (h e)) -> oblivious (try_catch m h).
Proof.
  intros (r & l & q & Hm) Hh. destruct r as [a | e].
  - exists (Ok a), l, q. intros st. unfold try_catch. by rewrite Hm.
  - destruct (Hh e) as (r' & l' & q' & Hhe).
    exists r', (l ++ l'), (q ++ q'). intros st.
    unfold try_catch. by rewrite Hm, Hhe, traces_traces.
Qed.

Lemma oblivious_if {A : Type} (b : bool) (m1 m2 : M A) :
  oblivious m1 -> oblivious m2 -> oblivious (if b then m1 else m2).
Proof. by destruct b. Qed.

Lemma oblivious_console_log args : oblivious (console_log args).
Proof.
  exists (Ok tt), [(LevelLog, args)], []. intros st.
  unfold console_log, traces. by rewrite app_nil_r.
Qed.

Lemma oblivious_console_error args : oblivious (console_error args).
Proof.
  exists (Ok tt), [(LevelError, args)], []. intros st.
  unfold console_error, traces. by rewrite app_nil_r.
Qed.

Create HintDb oblivious.
#[global] Hint Resolve oblivious_ret oblivious_throw oblivious_lift
  oblivious_console_log oblivious_console_error : oblivious.
#[global] Hint Resolve oblivious_bind oblivious_try_catch oblivious_if | 2 : oblivious.

(** ** The verification *)

Section VerifyFacts.

Context (env : Env) (cfg : Config).

Lemma strict_eq_str_true v lit : strict_eq_str v lit = true <-> v = VStr lit.
Proof.
  destruct v; simpl; try (split; [discriminate | congruence]).
  rewrite String.eqb_eq. split; congruence.
Qed.

Lemma oblivious_await_fetch url init : oblivious (await_fetch env url init).
Proof.
  unfold await_fetch. destruct (fetch env url init) as [e | r] eqn:Hf.
  - exists (Throw e), [], [(url, init)]. intros st. unfold traces. by rewrite app_nil_r.
  - exists (Ok r), [], [(url, init)]. intros st. unfold traces. by rewrite app_nil_r.
Qed.

Lemma oblivious_response_text r : oblivious (response_text r).
Proof. unfold response_text. destruct (body_text r); auto with oblivious. Qed.

Lemma oblivious_response_json r : oblivious (response_json env r).
Proof.
  unfold response_json.
  apply oblivious_bind; auto using oblivious_response_text with oblivious.
Qed.

Hint Resolve oblivious_await_fetch oblivious_response_text
  oblivious_response_json : oblivious.

Lemma oblivious_getPayPalAccessToken : oblivious (getPayPalAccessToken env cfg).
Proof.
  unfold getPayPalAccessToken.
  apply oblivious_bind; [auto with oblivious | intros response].
  apply oblivious_if; auto 10 with oblivious.
Qed.

Lemma oblivious_verifyPayPalWebhook hdrs raw :
  oblivious (verifyPayPalWebhook env cfg hdrs raw).
Proof.
  unfold verifyPayPalWebhook.
  apply oblivious_try_catch; [| auto 10 with oblivious].
  apply oblivious_bind; [apply oblivious_getPayPalAccessToken | intros accessToken].
  apply oblivious_bind; [auto with oblivious | intros webhook_event].
  apply oblivious_bind; [auto with oblivious | intros response].
  apply oblivious_if; auto 10 with oblivious.
Qed.

(** The verification always returns a boolean. *)
Lemma verify_total hdrs raw st :
  exists b, result_of (verifyPayPalWebhook env cfg hdrs raw) st = Ok b.
Proof. run_verify; eauto. Qed.

(** From any state it returns the verdict, and leaves only traces. *)
Lemma verify_run hdrs raw :
  exists l q, forall st,
    verifyPayPalWebhook env cfg hdrs raw st =
    (Ok (verdict env cfg hdrs raw), traces l q st).
Proof.
  destruct (oblivious_verifyPayPalWebhook hdrs raw) as (r & l & q & Hrun).
  exists l, q. intros st. rewrite Hrun. f_equal.
  unfold verdict, result_of. rewrite Hrun. simpl.
  destruct (verify_total hdrs raw st) as [b Hb].
  unfold result_of in Hb. rewrite Hrun in Hb. simpl in Hb. by subst r.
Qed.

Lemma verify_returns_verdict hdrs raw st :
  result_of (verifyPayPalWebhook env cfg hdrs raw) st = Ok (verdict env cfg hdrs raw).
Proof.
  destruct (verify_run hdrs raw) as (l & q & Hrun).
  unfold result_of. by rewrite Hrun.
Qed.

Lemma getPayPalAccessToken_result st1 st2 :
  result_of (getPayPalAccessToken env cfg) st1 =
  result_of (getPayPalAccessToken env cfg) st2.
Proof.
  destruct oblivious_getPayPalAccessToken as (r & l & q & Hrun).
  unfold result_of. by rewrite !Hrun.
Qed.

End VerifyFacts.

(** Two runs of the same call have the same outcome. *)
Ltac join_runs :=
  repeat match goal with
  | H1 : ?x = _, H2 : ?x = _ |- _ => rewrite H1 in H2; simplify_eq
  | H : negb _ = true |- _ => apply negb_true_iff in H
  | H : negb _ = false |- _ => apply negb_false_iff in H
  | H : strict_eq_str _ _ = true |- _ => apply strict_eq_str_true in H; subst
  end.

(** ** The route follows the request state machine *)

Section HandlerFacts.

Context (env : Env) (cfg : Config).

(** The handler ends in the terminal state that [outcome] computes, and
    shows what that state prescribes: its result, the store, the calls
    issued to the store and the responses written. *)
Lemma paypal_webhook_run req st :
  let o := outcome env cfg req (store st) in
  let st' := state_after (paypal_webhook env cfg req) st in
  result_of (paypal_webhook env cfg req) st = outcome_result o /\
  store st' = outcome_store o (store st) /\
  store_calls st' = store_calls st ++ outcome_calls o /\
  responses st' = responses st ++ outcome_responses o.
Proof.
  destruct (verify_run env cfg (headers req) (rawBody req)) as (l & q & Hv).
  unfold paypal_webhook, outcome, custom_id_of, update. unfold_ops. reduce_runs.
  rewrite Hv. unfold traces. reduce_runs.
  destruct (verdict env cfg (headers req) (rawBody req)); reduce_runs.
  2:{ simpl. by rewrite app_nil_r. }
  repeat (case_match; simplify_eq; reduce_runs).
  all: simpl; rewrite ?app_nil_r; done.
Qed.

Lemma paypal_webhook_store req st :
  store (state_after (paypal_webhook env cfg req) st) =
  outcome_store (outcome env cfg req (store st)) (store st).
Proof. apply paypal_webhook_run. Qed.

Lemma paypal_webhook_calls req st :
  store_calls (state_after (paypal_webhook env cfg req) st) =
  store_calls st ++ outcome_calls (outcome env cfg req (store st)).
Proof. apply paypal_webhook_run. Qed.

Lemma paypal_webhook_responses req st :
  responses (state_after (paypal_webhook env cfg req) st) =
  responses st ++ outcome_responses (outcome env cfg req (store st)).
Proof. apply paypal_webhook_run. Qed.

Lemma paypal_webhook_result req st :
  result_of (paypal_webhook env cfg req) st =
  outcome_result (outcome env cfg req (store st)).
Proof. apply paypal_webhook_run. Qed.

(** [doc] returns a reference only for a non-empty string. *)
Lemma doc_ok collection v ref :
  doc env collection v = Ok ref ->
  exists id, v = VStr id /\ id <> EmptyString.
Proof.
  unfold doc. intros Hdoc. repeat case_match; simplify_eq.
  eexists. split; [done |]. intros ->. done.
Qed.

(** The reference lies below the collection. *)
Lemma doc_below collection v ref :
  doc env collection v = Ok ref ->
  exists segments, ref.1 = below collection segments.
Proof.
  unfold doc. intros Hdoc. repeat case_match; simplify_eq.
  by eexists.
Qed.

Lemma truthy_nonempty id : id <> EmptyString -> truthy (VStr id) = true.
Proof. intros Hne. simpl. by destruct id. Qed.

(** The terminal state is [Mutated] exactly when the request passes the
    three guards and its update applies. *)
Lemma outcome_mutated req st ref d :
  outcome env cfg req (store st) = Mutated ref d <->
  verdict env cfg (headers req) (rawBody req) = true /\
  cancellation req /\
  update_applies env req st ref d.
Proof.
  unfold outcome, cancellation, update_applies, correlation_id. split.
  - intros Ho. repeat case_match; simplify_eq. join_runs.
    match goal with H : doc _ _ _ = Ok _ |- _ =>
      destruct (doc_ok _ _ _ H) as (id & -> & Hne) end.
    repeat split; try done. exists id. repeat split; done.
  - intros (Hv & Hc & id & [Hid Hne] & Hdoc & Hfault & Hd).
    rewrite Hv, Hc, Hid, (truthy_nonempty _ Hne), Hdoc, Hfault, Hd. done.
Qed.

End HandlerFacts.

(** ** Verification: fail-closed, and true only on PayPal's word *)

Section VerifyTheorems.

Context (env : Env) (cfg : Config).

(** C2. [verifyPayPalWebhook] never throws: from every state, for every
    headers and raw body and whatever the outside world answers, it
    returns a boolean; and whenever the token exchange, the parsing of
    the raw body or the verification call fails (an exception, a network
    error, a non-success status, a malformed response), that boolean is
    [false]. *)
Theorem verifyPayPalWebhook_fails_closed hdrs raw st :
  (exists b, result_of (verifyPayPalWebhook env cfg hdrs raw) st = Ok b) /\
  (verification_failure env cfg hdrs raw st ->
   result_of (verifyPayPalWebhook env cfg hdrs raw) st = Ok false).
Proof.
  split; [apply verify_total |].
  intros [e Htok | Hraw | tok ev e Htok Hraw Hcall | tok ev r Htok Hraw Hcall Hok
         | tok ev r e Htok Hraw Hcall Hres].
  all: run_verify; join_runs; done.
Qed.


End VerifyTheorems.

(** The reference that [doc] builds depends on the path alone. *)
Lemma doc_agrees env1 env2 collection v ref1 ref2 :
  doc env1 collection v = Ok ref1 -> doc env2 collection v = Ok ref2 -> ref1 = ref2.
Proof.
  unfold doc. intros H1 H2. repeat case_match; simplify_eq. done.
Qed.

(** ** The guarded mutation *)

Section HandlerTheorems.

Context (env : Env) (cfg : Config).

Lemma outcome_store_changed o s :
  outcome_store o s <> s -> exists ref d, o = Mutated ref d.
Proof. destruct o; simpl; try done. eauto. Qed.

(** C1, as the program has it.  The store is written when the request is
    verified, is a cancellation, carries a non-empty correlation
    identifier and the update of that record goes through, and then the
    write sets [validationStatus] of that record to ['pending']; the
    store changes in no other case: not on the other paths, and not when
    the update is refused or fails. *)
Theorem store_mutated_iff_update_applies req st :
  let st' := state_after (paypal_webhook env cfg req) st in
  (forall ref d,
     verdict env cfg (headers req) (rawBody req) = true ->
     cancellation req ->
     update_applies env req st ref d ->
     store st' = <[ref := <["validationStatus" := VStr "pending"]> d]> (store st)) /\
  (store st' <> store st ->
     verdict env cfg (headers req) (rawBody req) = true /\
     cancellation req /\
     exists ref d, update_applies env req st ref d).
Proof.
  intros st'. subst st'. rewrite paypal_webhook_store. split.
  - intros ref d Hv Hc Hu.
    assert (Ho : outcome env cfg req (store st) = Mutated ref d)
      by (apply outcome_mutated; done).
    by rewrite Ho.
  - intros Hne. apply outcome_store_changed in Hne as (ref & d & Ho).
    apply outcome_mutated in Ho as (Hv & Hc & Hu). eauto.
Qed.

(** C6, as the program has it.  For a verified cancellation whose
    resource carries the non-empty correlation identifier [id]: when the
    store client builds a reference from [id], exactly one call is
    issued to the store, the update of that reference with the single
    field [validationStatus] set to ['pending']; the store is as before
    unless the store has no fault and holds the record, in which case
    the record has that field set; every other record, the existence of
    the record and its other fields are as before.  When the client
    refuses [id], no call is issued, the store is as before and the
    answer is 500. *)
Theorem cancellation_issues_one_pending_update req st id :
  verdict env cfg (headers req) (rawBody req) = true ->
  cancellation req ->
  correlation_id req id ->
  let st' := state_after (paypal_webhook env cfg req) st in
  match doc env "technicians" (VStr id) with
  | Ok ref =>
      store_calls st' =
        store_calls st ++ [mkUpdate ref [("validationStatus", VStr "pending")]] /\
      store st' =
        match store_fault env ref, store st !! ref with
        | None, Some d => <[ref := <["validationStatus" := VStr "pending"]> d]> (store st)
        | _, _ => store st
        end /\
      (forall other, other <> ref -> store st' !! other = store st !! other) /\
      (is_Some (store st' !! ref) <-> is_Some (store st !! ref)) /\
      (forall field, field <> "validationStatus" ->
         store st' !! ref ≫= (.!! field) = store st !! ref ≫= (.!! field))
  | Throw e =>
      store_calls st' = store_calls st /\
      store st' = store st /\
      responses st' =
        responses st ++
        [mkHttp 500 "Error interno del servidor al actualizar la base de datos."]
  end.
Proof.
  intros Hv Hc [Hid Hne] st'. subst st'.
  rewrite paypal_webhook_store, paypal_webhook_calls, paypal_webhook_responses.
  unfold cancellation in Hc.
  unfold outcome. rewrite Hv, Hc, Hid, (truthy_nonempty _ Hne).
  destruct (doc env "technicians" (VStr id)) as [ref | e] eqn:Hdoc; simpl.
  2:{ by rewrite app_nil_r. }
  destruct (store_fault env ref) as [e |];
    [| destruct (store st !! ref) as [d |] eqn:Hd]; simpl.
  all: rewrite ?Hd; repeat split; try done.
  - intros other Hother. by rewrite lookup_insert_ne.
  - intros _. rewrite lookup_insert_eq. by eexists.
  - intros field Hfield. rewrite lookup_insert_eq.
    simpl. by rewrite lookup_insert_ne.
Qed.

Lemma pending_twice (ref : DocRef) (d : gmap string value)
    (s : gmap DocRef (gmap string value)) :
  let d' := <["validationStatus" := VStr "pending"]> d in
  <[ref := <["validationStatus" := VStr "pending"]> d']> (<[ref := d']> s) =
  <[ref := d']> s.
Proof. intros d'. subst d'. by rewrite !insert_insert_eq. Qed.

(** C7. Delivering a request twice leaves the store as delivering it
    once: in a world that answers both deliveries alike, the second run
    of the handler does not change the store; and once a delivery has
    been answered 200, a further delivery of the same request leaves the
    store unchanged in any world, because the write sets
    [validationStatus] to a fixed value. *)
Theorem redelivery_is_idempotent req st :
  let once := state_after (paypal_webhook env cfg req) st in
  store (state_after (paypal_webhook env cfg req) once) = store once /\
  (forall env' cfg' text,
     responses once = responses st ++ [mkHttp 200 text] ->
     store (state_after (paypal_webhook env' cfg' req) once) = store once).
Proof.
  intros once.
  assert (Honce : store once =
                  outcome_store (outcome env cfg req (store st)) (store st))
    by apply paypal_webhook_store.
  assert (Hanswer : responses once =
                    responses st ++ outcome_responses (outcome env cfg req (store st)))
    by apply paypal_webhook_responses.
  clearbody once. split.
  - rewrite paypal_webhook_store.
    destruct (outcome env cfg req (store st)) as [| | | e | ref e | ref d | e] eqn:Ho;
      simpl in Honce; try (by rewrite Honce, Ho).
    apply outcome_mutated in Ho as (Hv & Hc & id & Hid & Hdoc & Hfault & Hd).
    assert (Ho' : outcome env cfg req (store once) =
                  Mutated ref (<["validationStatus" := VStr "pending"]> d)).
    { apply outcome_mutated. repeat split; try done.
      exists id. repeat split; try done; try apply Hid.
      by rewrite Honce, lookup_insert_eq. }
    rewrite Ho'. simpl. rewrite Honce. apply pending_twice.
  - intros env' cfg' text Hresp. rewrite paypal_webhook_store.
    destruct (outcome env' cfg' req (store once)) as [| | | e | ref e | ref' d' | e] eqn:Ho';
      simpl; try done.
    apply outcome_mutated in Ho' as (_ & Hc & id & [Hid Hne] & Hdoc' & _ & Hd').
    rewrite Hanswer in Hresp. apply app_inv_head in Hresp.
    unfold outcome in Hresp, Honce.
    unfold cancellation in Hc.
    rewrite Hc, Hid, (truthy_nonempty _ Hne) in Hresp, Honce.
    destruct (verdict env cfg (headers req) (rawBody req)); [| discriminate].
    destruct (doc env "technicians" (VStr id)) as [ref | e] eqn:Hdoc;
      simpl in Hresp, Honce; [| discriminate].
    pose proof (doc_agrees _ _ _ _ _ _ Hdoc Hdoc') as ->.
    destruct (store_fault env ref'); [discriminate |].
    destruct (store st !! ref') as [d |]; [| discriminate].
    simpl in Honce. rewrite Honce in Hd' |- *.
    rewrite lookup_insert_eq in Hd'. simplify_eq.
    apply pending_twice.
Qed.

End HandlerTheorems.

(** ** The credential exchange *)

Section TokenTheorems.

Context (env : Env) (cfg : Config).

Lemma prefix_refl s : String.prefix s s = true.
Proof.
  induction s as [| c s IH]; simpl; [done |].
  by destruct (ascii_dec c c).
Qed.

Lemma is_infix_prefix needle hay :
  String.prefix needle hay = true -> is_infix needle hay = true.
Proof. intros Hp. destruct hay; cbn [is_infix]; by rewrite Hp. Qed.

Lemma is_infix_app_r p s : is_infix s (p ++ s)%string = true.
Proof.
  induction p as [| c p IH]; simpl.
  - apply is_infix_prefix, prefix_refl.
  - rewrite IH. apply orb_true_r.
Qed.

(** C8, as the program has it.  When the token endpoint answers with a
    non-success status and a readable body, the exchange fails with an
    [Error] whose message carries the status and nothing of the body;
    the body text goes to the console.  When it answers with a success
    status and a JSON body, the exchange returns the [access_token]
    field of that body. *)
Theorem getPayPalAccessToken_outcomes st response :
  fetch env (token_url cfg) (token_request env cfg) = Responded response ->
  let failure :=
    mkError "Error"
      ("Failed to get PayPal access token. Status: " ++ pretty (status response)) in
  (forall text,
     ok response = false ->
     body_text response = Some text ->
     result_of (getPayPalAccessToken env cfg) st = Throw failure /\
     error_carries failure (pretty (status response)) = true /\
     console (state_after (getPayPalAccessToken env cfg) st) =
       console st ++ [(LevelError, [LStr "Respuesta de error de PayPal:"; LStr text])]) /\
  (forall text data,
     ok response = true ->
     body_text response = Some text ->
     JSON_parse env text = Some data ->
     result_of (getPayPalAccessToken env cfg) st = get_prop data "access_token").
Proof.
  intros Hcall failure. split.
  - intros text Hok Htext. unfold error_carries, failure. simpl err_message.
    rewrite is_infix_app_r.
    run_verify; join_runs; done.
  - intros text data Hok Htext Hdata.
    run_verify; join_runs; done.
Qed.

End TokenTheorems.

(** C8 as worded fails: PayPal answers 401 with a body naming the
    error [invalid_client]; the error thrown carries the status 401 and
    no part of that body. *)
Lemma token_error_drops_body_text : ~ token_error_carries_status_and_text.
Proof.
  intros Hclaim.
  destruct (Hclaim Sample.refusing Sample.cfg initial_state
              (mkResponse 401 (Some Sample.invalid_client_text))
              Sample.invalid_client_text)
    as (e & Hrun & _ & Htext); try reflexivity.
  vm_compute in Hrun. injection Hrun as <-. vm_compute in Htext. discriminate.
Qed.

(** ** The raw body *)

Section RawBody.

Context (env : Env) (cfg : Config).

Lemma token_url_not_verify_url : String.eqb (token_url cfg) (verify_url cfg) = false.
Proof.
  unfold token_url, verify_url, PAYPAL_API_BASE.
  by destruct (strict_eq_str _ _).
Qed.

(** What a verification sends to the verification endpoint: nothing, or
    the serialisation of [verificationData] built on the parsed raw
    body. *)
Lemma sent_to_verifier_cases hdrs raw :
  (sent_to_verifier env cfg hdrs raw = [] /\ verdict env cfg hdrs raw = false) \/
  exists webhook_event,
    JSON_parse env (opt_to_string raw) = Some webhook_event /\
    sent_to_verifier env cfg hdrs raw =
      [JSON_stringify env (verificationData cfg hdrs webhook_event)].
Proof.
  unfold sent_to_verifier, verdict, initial_state.
  run_verify; cbn [app List.filter map fst snd].
  all: rewrite ?String.eqb_refl, ?token_url_not_verify_url;
    cbn [map List.filter init_body snd verify_request].
  all: try (left; split; reflexivity).
  all: right; eexists; split; reflexivity.
Qed.


(** When the body parser reads from the buffer the very text that
    [buf.toString()] gives (a UTF-8 body without byte-order mark), a
    request that reaches the routing step has for [req.body] the parse
    of the raw body text that was verified.  [JSON.parse] is assumed to
    reject the text [undefined] and the empty text. *)
Lemma plainly_decoded_event_is_routed_event w req :
  (forall buf, in_payload w = Some buf ->
     decode_body env (in_headers w) buf = inr (Buffer_toString env buf)) ->
  JSON_parse env "undefined" = None ->
  JSON_parse env EmptyString = None ->
  ingest env w = Next req ->
  verdict env cfg (headers req) (rawBody req) = true ->
  exists raw event,
    rawBody req = Some raw /\
    JSON_parse env raw = Some event /\
    body req = event /\
    sent_to_verifier env cfg (headers req) (rawBody req) =
      [JSON_stringify env (verificationData cfg (headers req) event)].
Proof.
  intros Hplain Hundefined Hempty Hin Hv.
  destruct (sent_to_verifier_cases (headers req) (rawBody req))
    as [[_ Hfalse] | (ev & Hev & Hsent)]; [congruence |].
  unfold ingest, express_json, express_json_verify in Hin.
  destruct (in_payload w) as [buf |] eqn:Hbuf.
  2:{ simplify_eq. cbn in Hev. congruence. }
  rewrite (Hplain buf eq_refl) in Hin.
  repeat case_match; simplify_eq; cbn [rawBody headers body] in *.
  all: unfold opt_to_string in Hev; simpl in Hev.
  - match goal with H : (_ =? _)%string = true |- _ =>
      apply String.eqb_eq in H; rewrite H in Hev end.
    congruence.
  - join_runs. eauto 10.
Qed.

End RawBody.

(** ** Where the handler answers, and where it does not *)

Section Responses.

Context (env : Env) (cfg : Config).

(** The status that each terminal state answers with. *)
Lemma outcome_status o :
  match o with
  | Rejected => map http_status (outcome_responses o) = [401]
  | Ignored | Unprocessable | Mutated _ _ => map http_status (outcome_responses o) = [200]
  | IdRefused _ | UpdateFailed _ _ => map http_status (outcome_responses o) = [500]
  | Crashed _ => outcome_responses o = []
  end.
Proof. by destruct o. Qed.

(** Unless the handler crashes, it returns normally and has written
    exactly one response. *)
Lemma paypal_webhook_answers_once req st :
  (forall e, outcome env cfg req (store st) <> Crashed e) ->
  result_of (paypal_webhook env cfg req) st = Ok tt /\
  exists response,
    responses (state_after (paypal_webhook env cfg req) st) = responses st ++ [response] /\
    (http_status response = 401 \/ http_status response = 200 \/
     http_status response = 500).
Proof.
  intros Hsafe. rewrite paypal_webhook_result, paypal_webhook_responses.
  destruct (outcome env cfg req (store st)) eqn:Ho; simpl; try (by eauto 6).
  by destruct (Hsafe e).
Qed.

(** The handler crashes exactly on a verified request whose body has no
    readable [event_type], or is a cancellation without a readable
    [resource.custom_id]. *)
Lemma outcome_crashed req s e :
  outcome env cfg req s = Crashed e <->
  verdict env cfg (headers req) (rawBody req) = true /\
  (get_prop (body req) "event_type" = Throw e \/
   (cancellation req /\ custom_id_of (body req) = Throw e)).
Proof.
  unfold outcome, cancellation. split.
  - intros Ho. repeat case_match; simplify_eq; join_runs; auto.
  - intros [Hv [Het | [Hc Hid]]].
    + by rewrite Hv, Het.
    + by rewrite Hv, Hc, Hid.
Qed.

(** On such a request the handler throws and nothing is answered. *)
Lemma paypal_webhook_crash req st e :
  verdict env cfg (headers req) (rawBody req) = true ->
  cancellation req ->
  custom_id_of (body req) = Throw e ->
  result_of (paypal_webhook env cfg req) st = Throw e /\
  responses (state_after (paypal_webhook env cfg req) st) = responses st /\
  store (state_after (paypal_webhook env cfg req) st) = store st.
Proof.
  intros Hv Hc Hid.
  assert (Ho : outcome env cfg req (store st) = Crashed e)
    by (apply outcome_crashed; auto).
  rewrite paypal_webhook_result, paypal_webhook_responses, paypal_webhook_store, Ho.
  simpl. by rewrite app_nil_r.
Qed.

End Responses.

(** ** Runs on concrete worlds *)

Section Scenarios.

Import Sample.

(** C1 as worded fails: PayPal confirms a cancellation for [tech_123],
    but the store holds no such record; the update is rejected, the store
    is unchanged and the answer is 500. *)
Lemma store_unchanged_despite_guard : ~ mutation_iff_guard.
Proof.
  intros Hclaim.
  destruct (Hclaim trusting cfg (request cancel_text cancel_event) initial_state)
    as [_ Hmutated].
  apply Hmutated; [| by vm_compute].
  split; [by vm_compute | split; [reflexivity |]].
  exists "tech_123". split; [reflexivity | discriminate].
Qed.


(** C4 at its failing input: a verified cancellation event without
    [resource].  Reading [custom_id] throws, the handler leaves by that
    exception, and no response is written, where the claim has 200. *)
Example cancellation_without_resource_gets_no_response :
  ingest trusting (delivery bare_text) = Next (request bare_text bare_event) /\
  verdict trusting cfg signed_headers (Some bare_text) = true /\
  cancellation (request bare_text bare_event) /\
  result_of (paypal_webhook trusting cfg (request bare_text bare_event))
    with_technician =
    Throw (mkError "TypeError"
             "Cannot read properties of undefined (reading 'custom_id')") /\
  responses (state_after (paypal_webhook trusting cfg (request bare_text bare_event))
               with_technician) = [].
Proof. repeat split; by vm_compute. Qed.

(** C5 at its failing input: a verified cancellation event whose
    [resource] is [null].  The handler rejects with a [TypeError] that
    nothing catches, and the request is left without a response. *)
Example null_resource_crashes_handler :
  ingest trusting (delivery null_resource_text) =
    Next (request null_resource_text null_resource_event) /\
  verdict trusting cfg signed_headers (Some null_resource_text) = true /\
  result_of (paypal_webhook trusting cfg (request null_resource_text null_resource_event))
    with_technician =
    Throw (mkError "TypeError" "Cannot read properties of null (reading 'custom_id')") /\
  responses (state_after
               (paypal_webhook trusting cfg (request null_resource_text null_resource_event))
               with_technician) = [].
Proof. repeat split; by vm_compute. Qed.

End Scenarios.

(** ** The theorems at work on a concrete world *)

Section Witnesses.

Import Sample.

(** The cancellation of [tech_123], confirmed by PayPal, on a store that
    holds the record. *)
Lemma store_mutated_iff_update_applies_witness :
  verdict trusting cfg signed_headers (Some cancel_text) = true /\
  cancellation (request cancel_text cancel_event) /\
  update_applies trusting (request cancel_text cancel_event) with_technician
    ("technicians", "tech_123") technician /\
  store (state_after (paypal_webhook trusting cfg (request cancel_text cancel_event))
           with_technician) =
    <[("technicians", "tech_123") :=
        <["validationStatus" := VStr "pending"]> technician]> (store with_technician).
Proof.
  assert (Hv : verdict trusting cfg signed_headers (Some cancel_text) = true)
    by (vm_compute; reflexivity).
  assert (Hc : cancellation (request cancel_text cancel_event)) by reflexivity.
  assert (Hu : update_applies trusting (request cancel_text cancel_event) with_technician
                 ("technicians", "tech_123") technician).
  { exists "tech_123". split; [split; [reflexivity | discriminate] |].
    split; [reflexivity | split; [reflexivity | vm_compute; reflexivity]]. }
  split; [exact Hv | split; [exact Hc | split; [exact Hu |]]].
  exact (proj1 (store_mutated_iff_update_applies trusting cfg
                  (request cancel_text cancel_event) with_technician)
           _ _ Hv Hc Hu).
Defined.

(** PayPal refuses the credentials: the verification returns [false]. *)
Lemma verifyPayPalWebhook_fails_closed_witness :
  verification_failure refusing cfg signed_headers (Some cancel_text) initial_state /\
  result_of (verifyPayPalWebhook refusing cfg signed_headers (Some cancel_text))
    initial_state = Ok false.
Proof.
  assert (Hfail : verification_failure refusing cfg signed_headers (Some cancel_text)
                    initial_state).
  { eapply token_exchange_failed. vm_compute. reflexivity. }
  split; [exact Hfail |].
  exact (proj2 (verifyPayPalWebhook_fails_closed refusing cfg signed_headers
                  (Some cancel_text) initial_state) Hfail).
Defined.

(** The one call issued for the cancellation of [tech_123]. *)
Lemma cancellation_issues_one_pending_update_witness :
  verdict trusting cfg signed_headers (Some cancel_text) = true /\
  cancellation (request cancel_text cancel_event) /\
  correlation_id (request cancel_text cancel_event) "tech_123" /\
  store_calls (state_after (paypal_webhook trusting cfg (request cancel_text cancel_event))
                 with_technician) =
    [mkUpdate ("technicians", "tech_123") [("validationStatus", VStr "pending")]].
Proof.
  assert (Hv : verdict trusting cfg signed_headers (Some cancel_text) = true)
    by (vm_compute; reflexivity).
  assert (Hc : cancellation (request cancel_text cancel_event)) by reflexivity.
  assert (Hid : correlation_id (request cancel_text cancel_event) "tech_123")
    by (split; [reflexivity | discriminate]).
  split; [exact Hv | split; [exact Hc | split; [exact Hid |]]].
  pose proof (cancellation_issues_one_pending_update trusting cfg
                (request cancel_text cancel_event) with_technician
                "tech_123" Hv Hc Hid) as Hrun.
  cbv zeta in Hrun.
  change (doc trusting "technicians" (VStr "tech_123"))
    with (@Ok DocRef ("technicians", "tech_123")) in Hrun.
  exact (proj1 Hrun).
Defined.

(** The cancellation is applied, then delivered again while PayPal
    denies the signature. *)
Lemma redelivery_is_idempotent_witness :
  responses (state_after (paypal_webhook trusting cfg (request cancel_text cancel_event))
               with_technician) =
    responses with_technician ++ [mkHttp 200 "Webhook recibido y procesado"] /\
  store (state_after (paypal_webhook doubting cfg (request cancel_text cancel_event))
           (state_after (paypal_webhook trusting cfg (request cancel_text cancel_event))
              with_technician)) =
  store (state_after (paypal_webhook trusting cfg (request cancel_text cancel_event))
           with_technician).
Proof.
  assert (Hanswer :
    responses (state_after (paypal_webhook trusting cfg (request cancel_text cancel_event))
                 with_technician) =
    responses with_technician ++ [mkHttp 200 "Webhook recibido y procesado"])
    by (vm_compute; reflexivity).
  split; [exact Hanswer |].
  exact (proj2 (redelivery_is_idempotent trusting cfg
                  (request cancel_text cancel_event) with_technician)
           doubting cfg _ Hanswer).
Defined.

(** The token endpoint answers 401. *)
Lemma getPayPalAccessToken_outcomes_witness :
  fetch refusing (token_url cfg) (token_request refusing cfg) =
    Responded (mkResponse 401 (Some invalid_client_text)) /\
  ok (mkResponse 401 (Some invalid_client_text)) = false /\
  result_of (getPayPalAccessToken refusing cfg) initial_state =
    Throw (mkError "Error" "Failed to get PayPal access token. Status: 401").
Proof.
  assert (Hcall : fetch refusing (token_url cfg) (token_request refusing cfg) =
                  Responded (mkResponse 401 (Some invalid_client_text)))
    by (vm_compute; reflexivity).
  split; [exact Hcall | split; [reflexivity |]].
  exact (proj1 (proj1 (getPayPalAccessToken_outcomes refusing cfg initial_state _ Hcall)
                  invalid_client_text eq_refl eq_refl)).
Defined.


End Witnesses.

(** * Further properties of the code *)

(** ** The network calls of a verification *)

Section Network.

Context (env : Env) (cfg : Config).

(** What a verification adds to the network trace. *)
Lemma verify_outbound hdrs raw st :
  match result_of (getPayPalAccessToken env cfg) st,
        JSON_parse env (opt_to_string raw) with
  | Ok accessToken, Some webhook_event =>
      outbound (state_after (verifyPayPalWebhook env cfg hdrs raw) st) =
        outbound st ++
        [(token_url cfg, token_request env cfg);
         (verify_url cfg,
          verify_request env accessToken (verificationData cfg hdrs webhook_event))]
  | _, _ =>
      outbound (state_after (verifyPayPalWebhook env cfg hdrs raw) st) =
        outbound st ++ [(token_url cfg, token_request env cfg)]
  end.
Proof. run_verify; rewrite <- ?app_assoc; reflexivity. Qed.

(** X1. A verification sends the token request first, and then the
    verification request if and only if the token exchange returned and
    the raw body parsed; it sends nothing else.  An unparseable body
    still costs a token exchange, and the presence of the PayPal headers
    is not checked before calling PayPal.  The token is taken to be one
    that the template literal of the [Authorization] header prints (a
    string, as PayPal issues). *)
Theorem verification_network_discipline hdrs raw st :
  let st' := state_after (verifyPayPalWebhook env cfg hdrs raw) st in
  match result_of (getPayPalAccessToken env cfg) st,
        JSON_parse env (opt_to_string raw) with
  | Ok accessToken, Some webhook_event =>
      printable accessToken = true ->
      outbound st' =
        outbound st ++
        [(token_url cfg, token_request env cfg);
         (verify_url cfg,
          verify_request env accessToken (verificationData cfg hdrs webhook_event))]
  | _, _ => outbound st' = outbound st ++ [(token_url cfg, token_request env cfg)]
  end.
Proof.
  intros st'. subst st'. run_verify; try intros _; rewrite <- ?app_assoc; reflexivity.
Qed.

(** The handler leaves the network trace of its verification. *)
Lemma paypal_webhook_outbound_run req st l q :
  (forall st0, verifyPayPalWebhook env cfg (headers req) (rawBody req) st0 =
               (Ok (verdict env cfg (headers req) (rawBody req)), traces l q st0)) ->
  outbound (state_after (paypal_webhook env cfg req) st) = outbound st ++ q.
Proof.
  intros Hv.
  unfold paypal_webhook, update. unfold_ops. reduce_runs.
  rewrite Hv. unfold traces. reduce_runs.
  destruct (verdict env cfg (headers req) (rawBody req)); reduce_runs; [| done].
  repeat (case_match; simplify_eq; reduce_runs); done.
Qed.

(** X2. The handler calls the network only through its verification:
    routing and the store update send nothing, so that every webhook
    request costs one token exchange and at most one verification
    call. *)
Theorem paypal_webhook_outbound req st :
  outbound (state_after (paypal_webhook env cfg req) st) =
  outbound (state_after (verifyPayPalWebhook env cfg (headers req) (rawBody req)) st).
Proof.
  destruct (verify_run env cfg (headers req) (rawBody req)) as (l & q & Hv).
  rewrite (paypal_webhook_outbound_run req st l q Hv).
  unfold state_after. by rewrite Hv.
Qed.

(** X3. A success answer of the token endpoint whose JSON object has no
    [access_token] does not fail the exchange: it returns [undefined],
    and the verification request then goes out with the header
    [Authorization: Bearer undefined]. *)
Theorem missing_access_token_is_not_an_error st response text members :
  fetch env (token_url cfg) (token_request env cfg) = Responded response ->
  ok response = true ->
  body_text response = Some text ->
  JSON_parse env text = Some (VObj members) ->
  assoc "access_token" members = VUndefined ->
  result_of (getPayPalAccessToken env cfg) st = Ok VUndefined /\
  forall hdrs raw webhook_event,
    JSON_parse env (opt_to_string raw) = Some webhook_event ->
    exists call,
      outbound (state_after (verifyPayPalWebhook env cfg hdrs raw) st) =
        outbound st ++ [(token_url cfg, token_request env cfg); (verify_url cfg, call)] /\
      init_headers call =
        [("Content-Type", "application/json"); ("Authorization", "Bearer undefined")].
Proof.
  intros Hcall Hok Htext Hdata Htoken.
  assert (Hrun : result_of (getPayPalAccessToken env cfg) st = Ok VUndefined).
  { run_verify; join_runs; try done. simpl in *. congruence. }
  split; [exact Hrun |].
  intros hdrs raw webhook_event Hev.
  pose proof (verify_outbound hdrs raw st) as Hnet.
  rewrite Hrun, Hev in Hnet. eexists. split; [exact Hnet | reflexivity].
Qed.

End Network.

(** ** The paths of the handler *)

Section Paths.

Context (env : Env) (cfg : Config).

Lemma strict_eq_str_false v lit : v <> VStr lit -> strict_eq_str v lit = false.
Proof.
  intros Hne. destruct (strict_eq_str v lit) eqn:Heq; [| done].
  by apply strict_eq_str_true in Heq.
Qed.

Lemma falsy_values_spec v : v ∈ falsy_values <-> truthy v = false.
Proof.
  unfold falsy_values. rewrite !elem_of_cons, elem_of_nil. split.
  - intros [-> | [-> | [-> | [-> | [-> | []]]]]]; reflexivity.
  - destruct v as [| | [] | n | s | |]; simpl; try done; auto.
    + intros Hn. apply negb_false_iff, Z.eqb_eq in Hn. subst. auto.
    + intros Hs. apply negb_false_iff, String.eqb_eq in Hs. subst. auto 6.
Qed.

(** A raw body that does not parse, or that is absent, is not verified. *)
Lemma unparsed_verdict hdrs raw :
  JSON_parse env (opt_to_string raw) = None -> verdict env cfg hdrs raw = false.
Proof. intros Hraw. unfold verdict. run_verify; join_runs; done. Qed.

(** X4. A request whose verification returns [false] is answered 401 and
    nothing else happens: the body is not read (whatever it is), no call
    is issued to the store and the store is unchanged. *)
Theorem unverified_request_is_rejected req st :
  verdict env cfg (headers req) (rawBody req) = false ->
  let st' := state_after (paypal_webhook env cfg req) st in
  result_of (paypal_webhook env cfg req) st = Ok tt /\
  responses st' = responses st ++ [mkHttp 401 "Verificación de Webhook fallida."] /\
  store_calls st' = store_calls st /\
  store st' = store st.
Proof.
  intros Hv st'. subst st'.
  rewrite paypal_webhook_result, paypal_webhook_responses,
    paypal_webhook_calls, paypal_webhook_store.
  unfold outcome. rewrite Hv. simpl. by rewrite app_nil_r.
Qed.

(** X5. A verified event whose [event_type] is anything but the exact
    cancellation tag (another string, another case, not a string,
    absent) is acknowledged with 200 and ignored: [resource] is not
    read, no call is issued to the store and the store is unchanged.
    The [event_type] is taken to be one that the template literal of the
    console line prints. *)
Theorem other_event_is_acknowledged req st event_type :
  verdict env cfg (headers req) (rawBody req) = true ->
  get_prop (body req) "event_type" = Ok event_type ->
  event_type <> VStr "BILLING.SUBSCRIPTION.CANCELLED" ->
  printable event_type = true ->
  let st' := state_after (paypal_webhook env cfg req) st in
  result_of (paypal_webhook env cfg req) st = Ok tt /\
  responses st' = responses st ++ [mkHttp 200 "Webhook recibido y procesado"] /\
  store_calls st' = store_calls st /\
  store st' = store st.
Proof.
  intros Hv Het Hne Hprint st'. subst st'.
  rewrite paypal_webhook_result, paypal_webhook_responses,
    paypal_webhook_calls, paypal_webhook_store.
  unfold outcome. rewrite Hv, Het, (strict_eq_str_false _ _ Hne). simpl.
  by rewrite app_nil_r.
Qed.

(** X6. A verified cancellation whose [resource] has a falsy [custom_id]
    (absent, [null], [false], [0] or the empty string) is acknowledged
    with 200 and its own text, and is not processed: no call is issued
    to the store and the store is unchanged. *)
Theorem cancellation_without_id_is_acknowledged req st technicianId :
  verdict env cfg (headers req) (rawBody req) = true ->
  cancellation req ->
  custom_id_of (body req) = Ok technicianId ->
  technicianId ∈ falsy_values ->
  let st' := state_after (paypal_webhook env cfg req) st in
  result_of (paypal_webhook env cfg req) st = Ok tt /\
  responses st' = responses st ++ [mkHttp 200 "Evento recibido pero sin technicianId."] /\
  store_calls st' = store_calls st /\
  store st' = store st.
Proof.
  intros Hv Hc Hid Hfalsy st'. subst st'.
  apply falsy_values_spec in Hfalsy. unfold cancellation in Hc.
  rewrite paypal_webhook_result, paypal_webhook_responses,
    paypal_webhook_calls, paypal_webhook_store.
  unfold outcome. rewrite Hv, Hc, Hid, Hfalsy. simpl. by rewrite app_nil_r.
Qed.

(** X7. For a verified cancellation with a non-empty identifier that the
    client takes as a key, the status tells whether the write happened:
    the answer is 200 or 500; 200 is answered only after the record was
    found and its [validationStatus] set to ['pending'], and 500 leaves
    the store as it was. *)
Theorem status_tells_whether_written req st id ref :
  verdict env cfg (headers req) (rawBody req) = true ->
  cancellation req ->
  correlation_id req id ->
  doc env "technicians" (VStr id) = Ok ref ->
  let st' := state_after (paypal_webhook env cfg req) st in
  exists response,
    responses st' = responses st ++ [response] /\
    (http_status response = 200 \/ http_status response = 500) /\
    (http_status response = 200 ->
       exists d, store st !! ref = Some d /\
         store st' = <[ref := <["validationStatus" := VStr "pending"]> d]> (store st)) /\
    (http_status response = 500 -> store st' = store st).
Proof.
  intros Hv Hc [Hid Hne] Hdoc st'. subst st'.
  unfold cancellation in Hc.
  rewrite paypal_webhook_responses, paypal_webhook_store.
  unfold outcome. rewrite Hv, Hc, Hid, (truthy_nonempty _ Hne), Hdoc. simpl.
  repeat case_match; simpl; eexists; (split; [reflexivity |]); simpl.
  all: repeat split; auto; try discriminate; eauto.
Qed.

(** X8. Whatever happens, the handler writes at most one response, and
    it is one of four fixed status-and-text pairs: neither the error
    body of PayPal nor the message of a store error reaches the caller. *)
Theorem responses_are_fixed req st :
  exists written,
    responses (state_after (paypal_webhook env cfg req) st) = responses st ++ written /\
    (length written <= 1)%nat /\
    forall response, response ∈ written -> response ∈ handler_responses.
Proof.
  rewrite paypal_webhook_responses.
  eexists. split; [reflexivity |].
  unfold handler_responses.
  destruct (outcome env cfg req (store st)); simpl; split; try lia.
  all: intros response Hin; try (by apply elem_of_nil in Hin).
  all: apply list_elem_of_singleton in Hin; subst.
  all: rewrite !elem_of_cons; auto 6.
Qed.

(** X9. A request whose raw body is absent or does not parse is answered
    401 without the verification endpoint being called: only the token
    request goes out, and the store is not touched. *)
Theorem unparsed_body_is_rejected_locally req st :
  JSON_parse env (opt_to_string (rawBody req)) = None ->
  let st' := state_after (paypal_webhook env cfg req) st in
  responses st' = responses st ++ [mkHttp 401 "Verificación de Webhook fallida."] /\
  outbound st' = outbound st ++ [(token_url cfg, token_request env cfg)] /\
  store_calls st' = store_calls st /\
  store st' = store st.
Proof.
  intros Hraw st'. subst st'.
  pose proof (unparsed_verdict (headers req) _ Hraw) as Hv.
  rewrite paypal_webhook_responses, paypal_webhook_calls, paypal_webhook_store.
  unfold outcome. rewrite Hv. simpl. rewrite app_nil_r.
  repeat split; try done.
  destruct (verify_run env cfg (headers req) (rawBody req)) as (l & q & Hrun).
  rewrite (paypal_webhook_outbound_run env cfg req st l q Hrun).
  pose proof (verify_outbound env cfg (headers req) (rawBody req) st) as Hnet.
  rewrite Hraw in Hnet. unfold state_after in Hnet. rewrite Hrun in Hnet.
  by destruct (result_of (getPayPalAccessToken env cfg) st).
Qed.

End Paths.

(** ** Deliveries in any order *)

Section Order.

Context (env : Env) (cfg : Config).

Lemma alter_present {A : Type} (f : A -> A) (m : gmap DocRef A) k x :
  m !! k = Some x -> alter f k m = <[k := f x]> m.
Proof.
  intros Hk. apply map_eq. intros j. rewrite lookup_alter, lookup_insert.
  case_decide; [by rewrite Hk | done].
Qed.

Lemma alter_absent {A : Type} (f : A -> A) (m : gmap DocRef A) k :
  m !! k = None -> alter f k m = m.
Proof.
  intros Hk. apply map_eq. intros j. rewrite lookup_alter.
  case_decide; [subst; by rewrite Hk | done].
Qed.

Lemma alter_alter_ne {A : Type} (f g : A -> A) (m : gmap DocRef A) i j :
  i <> j -> alter f i (alter g j m) = alter g j (alter f i m).
Proof.
  intros Hij. apply map_eq. intros k. rewrite !lookup_alter.
  repeat case_decide; simplify_eq; done.
Qed.

(** The handler does to the store what [alter] does at the target of the
    request. *)
Lemma paypal_webhook_store_alter req st :
  store (state_after (paypal_webhook env cfg req) st) =
  match target env cfg req with
  | Some ref => alter (<["validationStatus" := VStr "pending"]>) ref (store st)
  | None => store st
  end.
Proof.
  rewrite paypal_webhook_store. unfold outcome, target.
  repeat (case_match; simplify_eq); simpl; try done.
  - symmetry. by apply alter_present.
  - symmetry. by apply alter_absent.
Qed.

(** X11. Two deliveries, for the same record or for different ones,
    leave the same store in either order, in a world that answers them
    alike: the write sets a fixed value on one record. *)
Theorem deliveries_commute req1 req2 st :
  store (state_after (paypal_webhook env cfg req2)
           (state_after (paypal_webhook env cfg req1) st)) =
  store (state_after (paypal_webhook env cfg req1)
           (state_after (paypal_webhook env cfg req2) st)).
Proof.
  rewrite !paypal_webhook_store_alter.
  destruct (target env cfg req1) as [ref1 |], (target env cfg req2) as [ref2 |];
    try done.
  destruct (decide (ref1 = ref2)) as [-> | Hne]; [done |].
  by apply alter_alter_ne.
Qed.

End Order.

(** ** What the verification writes to the console *)

Section Console.

Context (env : Env) (cfg : Config).


End Console.

(** ** Start-up *)

(** X13. The server listens only after the Firebase SDK was initialised,
    and then on the port of [PORT], or on 8080 when [PORT] is unset or
    empty.  When loading the key or initialising throws, the process
    ends with status 1 without listening; the console then shows the two
    lines about the missing key file exactly when the error has the code
    [MODULE_NOT_FOUND], and the error itself otherwise. *)
Theorem server_listens_only_with_firebase h :
  match main h with
  | (lines, Listening port) =>
      (exists serviceAccount,
         require_serviceAccountKey h = inr serviceAccount /\
         initializeApp h serviceAccount (FIREBASE_DATABASE_URL h) = None) /\
      head lines = Some (LevelLog, [LStr "Firebase Admin SDK inicializado correctamente."]) /\
      port = match env_PORT h with
             | Some p => if String.eqb p EmptyString then VNum 8080 else VStr p
             | None => VNum 8080
             end
  | (lines, Exited code) =>
      code = 1 /\
      exists error,
        (require_serviceAccountKey h = inl error \/
         exists serviceAccount,
           require_serviceAccountKey h = inr serviceAccount /\
           initializeApp h serviceAccount (FIREBASE_DATABASE_URL h) = Some error) /\
        Forall (fun line => line.1 = LevelError) lines /\
        (load_code error = Some "MODULE_NOT_FOUND" ->
         length lines = 2%nat /\ Forall (fun line => LErr (load_error error) ∉ line.2) lines) /\
        (load_code error <> Some "MODULE_NOT_FOUND" ->
         exists text, lines = [(LevelError, [LStr text; LErr (load_error error)])])
  end.
Proof.
  unfold main, initialize_firebase, load_firebase, PORT.
  destruct (require_serviceAccountKey h) as [error | serviceAccount] eqn:Hkey.
  2: destruct (initializeApp h serviceAccount (FIREBASE_DATABASE_URL h)) as [error |] eqn:Hinit.
  3:{ simpl. split; [eauto |]. split; [done |].
      destruct (env_PORT h) as [p |]; simpl; [| done]. by destruct (String.eqb p EmptyString). }
  all: simpl; split; [done |]; exists error; split; [eauto |].
  all: destruct (load_code error) as [code |] eqn:Hcode; simpl.
  all: try destruct (String.eqb code "MODULE_NOT_FOUND") eqn:Heq.
  all: try (apply String.eqb_eq in Heq; subst code).
  all: try (apply String.eqb_neq in Heq).
  all: repeat split; try (repeat constructor; fail); try congruence; eauto.
  all: repeat (constructor;
    [simpl; intros Hin; apply list_elem_of_singleton in Hin; discriminate |]).
  all: constructor.
Qed.

(** ** Retrying, the token, and what the handler never touches *)

Section Frame.

Context (env : Env) (cfg : Config).

(** X14. A delivery answered 500 leaves the store as it was, so that a
    later delivery of the same event, in a world in which the update
    goes through, applies the write and is answered 200. *)
Theorem failed_update_can_be_retried env' cfg' req st text ref d :
  let once := state_after (paypal_webhook env cfg req) st in
  responses once = responses st ++ [mkHttp 500 text] ->
  verdict env' cfg' (headers req) (rawBody req) = true ->
  cancellation req ->
  update_applies env' req st ref d ->
  let twice := state_after (paypal_webhook env' cfg' req) once in
  store once = store st /\
  store twice = <[ref := <["validationStatus" := VStr "pending"]> d]> (store st) /\
  responses twice = responses once ++ [mkHttp 200 "Webhook recibido y procesado"].
Proof.
  intros once Hanswer Hv Hc Hu twice.
  assert (Honce : store once = store st).
  { subst once. rewrite paypal_webhook_responses in Hanswer.
    apply app_inv_head in Hanswer. rewrite paypal_webhook_store.
    destruct (outcome env cfg req (store st)); simpl in *; done. }
  assert (Ho : outcome env' cfg' req (store once) = Mutated ref d).
  { apply outcome_mutated. repeat split; try done.
    destruct Hu as (id & Hid & Hdoc & Hfault & Hd).
    exists id. repeat split; try done; try apply Hid. by rewrite Honce. }
  split; [exact Honce |]. subst twice.
  rewrite paypal_webhook_store, paypal_webhook_responses, Ho. simpl.
  by rewrite Honce.
Qed.

(** X15. The token exchange returns a value only from a success answer
    with a JSON body other than [null], and then it returns the
    [access_token] member of that body; on a network error, a
    non-success status, an unreadable body or a body that is not JSON it
    throws. *)
Theorem token_returned_iff st accessToken :
  result_of (getPayPalAccessToken env cfg) st = Ok accessToken <->
  exists response text data,
    fetch env (token_url cfg) (token_request env cfg) = Responded response /\
    ok response = true /\
    body_text response = Some text /\
    JSON_parse env text = Some data /\
    get_prop data "access_token" = Ok accessToken.
Proof.
  split.
  - intros Hrun. run_verify; join_runs.
    do 3 eexists. repeat split; first [reflexivity | eassumption].
  - intros (response & text & data & Hcall & Hok & Htext & Hdata & Htoken).
    run_verify; join_runs; done.
Qed.

Lemma below_under_technicians segments :
  under_technicians (below "technicians" segments) = true.
Proof.
  unfold under_technicians, below.
  destruct segments as [| segment [| next rest]]; simpl; [done | |].
  all: match goal with |- String.prefix _ ?tail = true => by destruct tail end.
Qed.

(** The reference of a call that reaches the store lies under the
    collection [technicians]. *)
Lemma outcome_ref req s ref :
  (exists e, outcome env cfg req s = UpdateFailed ref e) \/
  (exists d, outcome env cfg req s = Mutated ref d) ->
  under_technicians ref.1 = true.
Proof.
  unfold outcome. intros [[e Ho] | [d Ho]].
  all: repeat (case_match; simplify_eq).
  all: match goal with H : doc _ _ _ = Ok _ |- _ =>
         apply doc_below in H as (segments & ->) end.
  all: apply below_under_technicians.
Qed.

(** X16. Whatever the request, the handler issues at most one call to
    the store, an update with the single field [validationStatus] set
    to ['pending'] of a document under the collection [technicians]
    (in it, or in a sub-collection that the path of the identifier leads
    to); it creates and deletes no record, leaves what is not under
    [technicians] as it is, and changes no other field of any record. *)
Theorem handler_frame req st :
  let st' := state_after (paypal_webhook env cfg req) st in
  (exists issued,
     store_calls st' = store_calls st ++ issued /\
     (length issued <= 1)%nat /\
     forall call, call ∈ issued ->
       under_technicians (call_ref call).1 = true /\
       call_data call = [("validationStatus", VStr "pending")]) /\
  (forall ref, is_Some (store st' !! ref) <-> is_Some (store st !! ref)) /\
  (forall ref, under_technicians ref.1 = false -> store st' !! ref = store st !! ref) /\
  (forall ref field, field <> "validationStatus" ->
     store st' !! ref ≫= (.!! field) = store st !! ref ≫= (.!! field)).
Proof.
  intros st'. subst st'.
  rewrite paypal_webhook_calls, paypal_webhook_store.
  pose proof (outcome_ref req (store st)) as Href.
  destruct (outcome env cfg req (store st)) as [| | | e | ref e | ref d | e] eqn:Ho;
    simpl.
  all: split; [eexists; split; [reflexivity |]; split; [simpl; lia |] |].
  all: try (intros call Hin; by apply elem_of_nil in Hin).
  all: try (intros call Hin; apply list_elem_of_singleton in Hin; subst call; simpl;
            split; [apply Href; eauto | done]).
  all: try (repeat split; done).
  assert (Hd : store st !! ref = Some d).
  { apply outcome_mutated in Ho as (_ & _ & id & _ & _ & _ & Hd). exact Hd. }
  split; [| split].
  - intros other. rewrite lookup_insert.
    case_decide; [subst; rewrite Hd; split; by eexists | done].
  - intros other Hother. rewrite lookup_insert_ne; [done |].
    intros <-. rewrite Href in Hother by eauto. discriminate.
  - intros other field Hfield. rewrite lookup_insert. case_decide; [subst | done].
    rewrite Hd. simpl. by rewrite lookup_insert_ne.
Qed.

End Frame.

(** ** The further properties at work on concrete worlds *)

Section FurtherWitnesses.

(** The token endpoint answers 200 with a body that has no token. *)
Lemma missing_access_token_is_not_an_error_witness :
  fetch Cases.tokenless (token_url Sample.cfg) (token_request Cases.tokenless Sample.cfg) =
    Responded (mkResponse 200 (Some Cases.tokenless_text)) /\
  JSON_parse Cases.tokenless Cases.tokenless_text = Some (VObj Cases.tokenless_members) /\
  assoc "access_token" Cases.tokenless_members = VUndefined /\
  result_of (getPayPalAccessToken Cases.tokenless Sample.cfg) initial_state = Ok VUndefined.
Proof.
  assert (Hcall : fetch Cases.tokenless (token_url Sample.cfg)
                    (token_request Cases.tokenless Sample.cfg) =
                  Responded (mkResponse 200 (Some Cases.tokenless_text)))
    by (vm_compute; reflexivity).
  assert (Hdata : JSON_parse Cases.tokenless Cases.tokenless_text =
                  Some (VObj Cases.tokenless_members))
    by (vm_compute; reflexivity).
  split; [exact Hcall | split; [exact Hdata | split; [reflexivity |]]].
  exact (proj1 (missing_access_token_is_not_an_error Cases.tokenless Sample.cfg
                  initial_state _ Cases.tokenless_text Cases.tokenless_members
                  Hcall eq_refl eq_refl Hdata eq_refl)).
Defined.

(** PayPal denies the signature of the cancellation of [tech_123]. *)
Lemma unverified_request_is_rejected_witness :
  verdict Sample.doubting Sample.cfg Sample.signed_headers (Some Sample.cancel_text) = false /\
  store (state_after
           (paypal_webhook Sample.doubting Sample.cfg
              (Sample.request Sample.cancel_text Sample.cancel_event))
           Sample.with_technician) = store Sample.with_technician.
Proof.
  assert (Hv : verdict Sample.doubting Sample.cfg Sample.signed_headers
                 (Some Sample.cancel_text) = false)
    by (vm_compute; reflexivity).
  split; [exact Hv |].
  exact (proj2 (proj2 (proj2 (unverified_request_is_rejected Sample.doubting Sample.cfg
           (Sample.request Sample.cancel_text Sample.cancel_event)
           Sample.with_technician Hv)))).
Defined.

(** A confirmed payment event. *)
Lemma other_event_is_acknowledged_witness :
  verdict Cases.trusting Sample.cfg Sample.signed_headers (Some Cases.sale_text) = true /\
  get_prop Cases.sale_event "event_type" = Ok (VStr "PAYMENT.SALE.COMPLETED") /\
  VStr "PAYMENT.SALE.COMPLETED" <> VStr "BILLING.SUBSCRIPTION.CANCELLED" /\
  printable (VStr "PAYMENT.SALE.COMPLETED") = true /\
  responses (state_after
               (paypal_webhook Cases.trusting Sample.cfg
                  (Sample.request Cases.sale_text Cases.sale_event))
               Sample.with_technician) =
    responses Sample.with_technician ++ [mkHttp 200 "Webhook recibido y procesado"].
Proof.
  assert (Hv : verdict Cases.trusting Sample.cfg Sample.signed_headers
                 (Some Cases.sale_text) = true)
    by (vm_compute; reflexivity).
  assert (Hne : VStr "PAYMENT.SALE.COMPLETED" <> VStr "BILLING.SUBSCRIPTION.CANCELLED")
    by discriminate.
  split; [exact Hv | split; [reflexivity | split; [exact Hne | split; [reflexivity |]]]].
  exact (proj1 (proj2 (other_event_is_acknowledged Cases.trusting Sample.cfg
           (Sample.request Cases.sale_text Cases.sale_event)
           Sample.with_technician _ Hv eq_refl Hne eq_refl))).
Defined.

(** A confirmed cancellation whose resource is empty. *)
Lemma cancellation_without_id_is_acknowledged_witness :
  verdict Cases.trusting Sample.cfg Sample.signed_headers (Some Cases.anonymous_text) = true /\
  cancellation (Sample.request Cases.anonymous_text Cases.anonymous_event) /\
  custom_id_of Cases.anonymous_event = Ok VUndefined /\
  VUndefined ∈ falsy_values /\
  responses (state_after
               (paypal_webhook Cases.trusting Sample.cfg
                  (Sample.request Cases.anonymous_text Cases.anonymous_event))
               Sample.with_technician) =
    responses Sample.with_technician ++
    [mkHttp 200 "Evento recibido pero sin technicianId."].
Proof.
  assert (Hv : verdict Cases.trusting Sample.cfg Sample.signed_headers
                 (Some Cases.anonymous_text) = true)
    by (vm_compute; reflexivity).
  assert (Hc : cancellation (Sample.request Cases.anonymous_text Cases.anonymous_event))
    by reflexivity.
  assert (Hfalsy : VUndefined ∈ falsy_values) by (unfold falsy_values; left).
  split; [exact Hv | split; [exact Hc | split; [reflexivity | split; [exact Hfalsy |]]]].
  exact (proj1 (proj2 (cancellation_without_id_is_acknowledged Cases.trusting Sample.cfg
           (Sample.request Cases.anonymous_text Cases.anonymous_event)
           Sample.with_technician VUndefined Hv Hc eq_refl Hfalsy))).
Defined.

(** The cancellation of [tech_123] on a store without the record. *)
Lemma status_tells_whether_written_witness :
  verdict Sample.trusting Sample.cfg Sample.signed_headers (Some Sample.cancel_text) = true /\
  cancellation (Sample.request Sample.cancel_text Sample.cancel_event) /\
  correlation_id (Sample.request Sample.cancel_text Sample.cancel_event) "tech_123" /\
  doc Sample.trusting "technicians" (VStr "tech_123") = Ok ("technicians", "tech_123") /\
  exists response,
    responses (state_after
                 (paypal_webhook Sample.trusting Sample.cfg
                    (Sample.request Sample.cancel_text Sample.cancel_event))
                 initial_state) = responses initial_state ++ [response] /\
    (http_status response = 200 \/ http_status response = 500).
Proof.
  assert (Hv : verdict Sample.trusting Sample.cfg Sample.signed_headers
                 (Some Sample.cancel_text) = true)
    by (vm_compute; reflexivity).
  assert (Hc : cancellation (Sample.request Sample.cancel_text Sample.cancel_event))
    by reflexivity.
  assert (Hid : correlation_id (Sample.request Sample.cancel_text Sample.cancel_event)
                  "tech_123")
    by (split; [reflexivity | discriminate]).
  assert (Hdoc : doc Sample.trusting "technicians" (VStr "tech_123") =
                 Ok ("technicians", "tech_123")) by reflexivity.
  split; [exact Hv | split; [exact Hc | split; [exact Hid | split; [exact Hdoc |]]]].
  destruct (status_tells_whether_written Sample.trusting Sample.cfg
              (Sample.request Sample.cancel_text Sample.cancel_event)
              initial_state "tech_123" ("technicians", "tech_123") Hv Hc Hid Hdoc)
    as (response & Hresp & Hstatus & _).
  exists response. split; [exact Hresp | exact Hstatus].
Defined.

(** A body that is not JSON. *)
Lemma unparsed_body_is_rejected_locally_witness :
  JSON_parse Sample.trusting "event_type=BILLING" = None /\
  outbound (state_after
              (paypal_webhook Sample.trusting Sample.cfg
                 (mkRequest Sample.signed_headers (Some "event_type=BILLING") (VObj [])))
              Sample.with_technician) =
    [(token_url Sample.cfg, token_request Sample.trusting Sample.cfg)].
Proof.
  assert (Hraw : JSON_parse Sample.trusting "event_type=BILLING" = None)
    by (vm_compute; reflexivity).
  split; [exact Hraw |].
  exact (proj1 (proj2 (unparsed_body_is_rejected_locally Sample.trusting Sample.cfg
           (mkRequest Sample.signed_headers (Some "event_type=BILLING") (VObj []))
           Sample.with_technician Hraw))).
Defined.


(** The store is down at the first delivery and back at the second. *)
Lemma failed_update_can_be_retried_witness :
  responses (state_after
               (paypal_webhook Cases.store_down Sample.cfg
                  (Sample.request Sample.cancel_text Sample.cancel_event))
               Sample.with_technician) =
    responses Sample.with_technician ++
    [mkHttp 500 "Error interno del servidor al actualizar la base de datos."] /\
  verdict Sample.trusting Sample.cfg Sample.signed_headers (Some Sample.cancel_text) = true /\
  cancellation (Sample.request Sample.cancel_text Sample.cancel_event) /\
  update_applies Sample.trusting (Sample.request Sample.cancel_text Sample.cancel_event)
    Sample.with_technician ("technicians", "tech_123") Sample.technician /\
  store (state_after
           (paypal_webhook Sample.trusting Sample.cfg
              (Sample.request Sample.cancel_text Sample.cancel_event))
           (state_after
              (paypal_webhook Cases.store_down Sample.cfg
                 (Sample.request Sample.cancel_text Sample.cancel_event))
              Sample.with_technician)) =
    <[("technicians", "tech_123") :=
        <["validationStatus" := VStr "pending"]> Sample.technician]>
      (store Sample.with_technician).
Proof.
  assert (Hanswer :
    responses (state_after
                 (paypal_webhook Cases.store_down Sample.cfg
                    (Sample.request Sample.cancel_text Sample.cancel_event))
                 Sample.with_technician) =
    responses Sample.with_technician ++
    [mkHttp 500 "Error interno del servidor al actualizar la base de datos."])
    by (vm_compute; reflexivity).
  assert (Hv : verdict Sample.trusting Sample.cfg Sample.signed_headers
                 (Some Sample.cancel_text) = true)
    by (vm_compute; reflexivity).
  assert (Hc : cancellation (Sample.request Sample.cancel_text Sample.cancel_event))
    by reflexivity.
  assert (Hu : update_applies Sample.trusting
                 (Sample.request Sample.cancel_text Sample.cancel_event)
                 Sample.with_technician ("technicians", "tech_123") Sample.technician).
  { exists "tech_123". split; [split; [reflexivity | discriminate] |].
    split; [reflexivity | split; [reflexivity | vm_compute; reflexivity]]. }
  split; [exact Hanswer | split; [exact Hv | split; [exact Hc | split; [exact Hu |]]]].
  exact (proj1 (proj2 (failed_update_can_be_retried Cases.store_down Sample.cfg
           Sample.trusting Sample.cfg
           (Sample.request Sample.cancel_text Sample.cancel_event)
           Sample.with_technician _ _ _ Hanswer Hv Hc Hu))).
Defined.

End FurtherWitnesses.

(** ** Runs at the edges *)

Section Edges.

(** C6 as worded fails: PayPal confirms a cancellation whose [custom_id]
    is [a/b].  The store client refuses the path, which does not name a
    document of [technicians]; [doc] throws inside the [try], no update
    call is issued and the answer is 500. *)
Lemma refused_identifier_gets_no_update : ~ every_identified_cancellation_is_updated.
Proof.
  intros Hclaim.
  destruct (Hclaim Edge.trusting Sample.cfg
              (Sample.request Edge.slash_text Edge.slash_event)
              Sample.with_technician "a/b")
    as [ref Hcalls].
  - by vm_compute.
  - reflexivity.
  - split; [reflexivity | discriminate].
  - vm_compute in Hcalls. discriminate.
Qed.

(** C10 at its failing input: a delivery whose [Content-Type] names the
    charset UTF-7 and whose body holds a UTF-7 escape.  The verify
    callback keeps [buf.toString()], the UTF-8 reading, and it is the
    parse of that text, the event of [tech+AF8-123], that goes to the
    verification endpoint; the body parser decodes the buffer as UTF-7,
    so that [req.body] is the event of [tech_123].  PayPal confirms the
    first, and the handler routes the second and updates the record of
    [tech_123]. *)
Example charset_splits_verified_and_routed_event :
  ingest Edge.trusting Edge.utf7_delivery =
    Next (mkRequest Edge.utf7_headers (Some Edge.plus_text) Sample.cancel_event) /\
  verdict Edge.trusting Sample.cfg Edge.utf7_headers (Some Edge.plus_text) = true /\
  JSON_parse Edge.trusting Edge.plus_text = Some Edge.plus_event /\
  sent_to_verifier Edge.trusting Sample.cfg Edge.utf7_headers (Some Edge.plus_text) =
    [JSON_stringify Edge.trusting
       (verificationData Sample.cfg Edge.utf7_headers Edge.plus_event)] /\
  custom_id_of Edge.plus_event = Ok (VStr "tech+AF8-123") /\
  custom_id_of Sample.cancel_event = Ok (VStr "tech_123") /\
  store_calls (state_after
                 (paypal_webhook Edge.trusting Sample.cfg
                    (mkRequest Edge.utf7_headers (Some Edge.plus_text) Sample.cancel_event))
                 Sample.with_technician) =
    [mkUpdate ("technicians", "tech_123") [("validationStatus", VStr "pending")]].
Proof. repeat split; by vm_compute. Qed.

(** PayPal grants the token [A21AAFs9], a string. *)
Lemma verification_network_discipline_witness :
  printable (VStr "A21AAFs9") = true /\
  outbound (state_after
              (verifyPayPalWebhook Sample.trusting Sample.cfg Sample.signed_headers
                 (Some Sample.cancel_text)) initial_state) =
    [(token_url Sample.cfg, token_request Sample.trusting Sample.cfg);
     (verify_url Sample.cfg,
      verify_request Sample.trusting (VStr "A21AAFs9")
        (verificationData Sample.cfg Sample.signed_headers Sample.cancel_event))].
Proof.
  split; [reflexivity |].
  pose proof (verification_network_discipline Sample.trusting Sample.cfg
                Sample.signed_headers (Some Sample.cancel_text) initial_state) as Hrun.
  cbv zeta in Hrun.
  change (result_of (getPayPalAccessToken Sample.trusting Sample.cfg) initial_state)
    with (@Ok value (VStr "A21AAFs9")) in Hrun.
  change (JSON_parse Sample.trusting (opt_to_string (Some Sample.cancel_text)))
    with (Some Sample.cancel_event) in Hrun.
  exact (Hrun eq_refl).
Defined.

End Edges.
